(** * fb-ads-generator: the /generate and /translate routes

    A shallow embedding of the two Next.js route handlers
    (the ad generator [POST] with [buildPrompt] and [scrapePage], and the
    translation [POST]) together with the JavaScript values and string
    operations they rely on, followed by the properties of the routes. *)

From Stdlib Require Import String Ascii DecimalString.
From Stdlib Require Import List NArith ZArith Bool Lia QArith_base.
Import ListNotations.

Local Open Scope list_scope.

(** ** JavaScript strings

    A JavaScript string is a sequence of UTF-16 code units.  [js] reads a
    literal of this file (UTF-8 bytes) as such a sequence. *)

Definition JsString := list N.

Fixpoint bytes_of_string (s : string) : list N :=
  match s with
  | EmptyString => []
  | String c r => N_of_ascii c :: bytes_of_string r
  end.

Definition utf16_of_code_point (cp : N) : list N :=
  if (cp <? 0x10000)%N then [cp]
  else let v := (cp - 0x10000)%N in
       [(0xD800 + v / 0x400)%N; (0xDC00 + v mod 0x400)%N].

(** [acc] is the code point read so far and [need] the number of
    continuation bytes still expected. *)
Fixpoint utf8_decode (bs : list N) (acc : N) (need : nat) : JsString :=
  match bs with
  | [] => []
  | b :: r =>
      match need with
      | O =>
          if (b <? 0x80)%N then b :: utf8_decode r 0%N 0
          else if (b <? 0xE0)%N then utf8_decode r (b mod 0x20)%N 1
          else if (b <? 0xF0)%N then utf8_decode r (b mod 0x10)%N 2
          else utf8_decode r (b mod 0x08)%N 3
      | S O => utf16_of_code_point (acc * 64 + b mod 64)%N ++ utf8_decode r 0%N 0
      | S n => utf8_decode r (acc * 64 + b mod 64)%N n
      end
  end.

Definition js (s : string) : JsString := utf8_decode (bytes_of_string s) 0%N 0.
Arguments js s%_string.

Definition dq : JsString := [34%N].   (* the double quote *)
Definition nl : JsString := [10%N].   (* \n *)

Definition str_eqb (a b : JsString) : bool :=
  if list_eq_dec N.eq_dec a b then true else false.

(** [s.length > 0], and the truthiness of a string. *)
Definition nonempty (s : JsString) : bool :=
  match s with [] => false | _ :: _ => true end.

(** WhiteSpace and LineTerminator code units, the ones
    [String.prototype.trim] strips. *)
Definition is_white_space (c : N) : bool :=
  ((c =? 0x09) || (c =? 0x0A) || (c =? 0x0B) || (c =? 0x0C) || (c =? 0x0D)
   || (c =? 0x20) || (c =? 0xA0) || (c =? 0x1680)
   || ((0x2000 <=? c) && (c <=? 0x200A))
   || (c =? 0x2028) || (c =? 0x2029) || (c =? 0x202F) || (c =? 0x205F)
   || (c =? 0x3000) || (c =? 0xFEFF))%N.

Fixpoint trimStart (s : JsString) : JsString :=
  match s with
  | [] => []
  | c :: r => if is_white_space c then trimStart r else s
  end.

Definition trimEnd (s : JsString) : JsString := rev (trimStart (rev s)).

Definition trim (s : JsString) : JsString := trimEnd (trimStart s).

(** [s.indexOf(c)] for a one-unit search string: the first position, or -1. *)
Fixpoint indexOf (s : JsString) (c : N) : Z :=
  match s with
  | [] => (-1)%Z
  | x :: r =>
      if (x =? c)%N then 0%Z
      else let i := indexOf r c in
           if (i =? -1)%Z then (-1)%Z else (i + 1)%Z
  end.

(** [s.lastIndexOf(c)]: the last position, or -1. *)
Definition lastIndexOf (s : JsString) (c : N) : Z :=
  let i := indexOf (rev s) c in
  if (i =? -1)%Z then (-1)%Z else (Z.of_nat (length s) - 1 - i)%Z.

(** [s.slice(a, b)]: a negative index counts from the end, and both are
    clamped to the string. *)
Definition slice_index (len k : Z) : Z :=
  if (k <? 0)%Z then Z.max (len + k) 0 else Z.min k len.

Definition slice (s : JsString) (a b : Z) : JsString :=
  let len := Z.of_nat (length s) in
  let from := slice_index len a in
  let to := slice_index len b in
  firstn (Z.to_nat (to - from)) (skipn (Z.to_nat from) s).

Definition join (sep : JsString) (parts : list JsString) : JsString :=
  match parts with
  | [] => []
  | p :: ps => p ++ concat (map (fun x => sep ++ x) ps)
  end.

(** ** JSON values and the host functions

    What [JSON.parse] returns.  Numbers are kept abstract: the routes only
    test them for truthiness and print them. *)

#[warnings="-register-all"]
Inductive JsValue (Num : Type) : Type :=
| JNull
| JBool (b : bool)
| JNum (n : Num)
| JStr (s : JsString)
| JArr (items : list (JsValue Num))
| JObj (props : list (JsString * JsValue Num)).

Arguments JNull {Num}.
Arguments JBool {Num} b.
Arguments JNum {Num} n.
Arguments JStr {Num} s.
Arguments JArr {Num} items.
Arguments JObj {Num} props.

(** The built-ins the routes call.  [JSON_parse] answers [None] where
    [JSON.parse] throws its SyntaxError; [JSON_stringify v n] is
    [JSON.stringify(v, null, n)]. *)
Class JsRuntime := {
  Num : Type;
  num_truthy : Num -> bool;
  Number_toString : Num -> JsString;
  JSON_parse : JsString -> option (JsValue Num);
  JSON_stringify : JsValue Num -> nat -> JsString;
}.

Definition Value `{JsRuntime} : Type := JsValue Num.

Section Values.
Context `{JsRuntime}.

Definition isArray (v : Value) : bool :=
  match v with JArr _ => true | _ => false end.

(** ToBoolean. *)
Definition truthy (v : Value) : bool :=
  match v with
  | JNull => false
  | JBool b => b
  | JNum n => num_truthy n
  | JStr s => nonempty s
  | JArr _ => true
  | JObj _ => true
  end.

(** [String(v)]; inside an array, [null] prints as the empty string. *)
Fixpoint ToString (v : Value) : JsString :=
  match v with
  | JNull => js "null"
  | JBool true => js "true"
  | JBool false => js "false"
  | JNum n => Number_toString n
  | JStr s => s
  | JArr items =>
      join (js ",")
        (map (fun x => match x with JNull => [] | _ => ToString x end) items)
  | JObj _ => js "[object Object]"
  end.

Fixpoint assoc (k : JsString) (props : list (JsString * Value)) : option Value :=
  match props with
  | [] => None
  | (k', v) :: r => if str_eqb k k' then Some v else assoc k r
  end.

(** [v.k] on a value that is neither null nor undefined, for the keys the
    routes read (ads, title, description, cta, targetLanguage), none of
    which is found on a prototype: [None] is [undefined]. *)
Definition prop (v : Value) (k : JsString) : option Value :=
  match v with
  | JObj props => assoc k props
  | _ => None
  end.

(** [x || d] where [x] may be undefined. *)
Definition or_else (x : option Value) (d : Value) : Value :=
  match x with
  | Some v => if truthy v then v else d
  | None => d
  end.

End Values.

(** ** Exceptions, outbound calls and the world of a request *)

(** A thrown value: an [Error] instance with its message, or anything else
    with its [message] property when it has one. *)
Inductive JsError :=
| ErrorObject (message : JsString)
| ThrownValue (message : option JsString).

Inductive Outcome (A : Type) :=
| Returned (a : A)
| Thrown (e : JsError).
Arguments Returned {A} a.
Arguments Thrown {A} e.

(** The [json_schema] response format of both routes: an object with the
    required key ads, an array of objects with exactly the required string
    keys title, description and cta; the routes differ in the name and in
    the bounds on the array. *)
Record AdListSchema := {
  schema_name : JsString;
  minItems : option nat;
  maxItems : option nat;
}.

Record Message := { role : JsString; content : JsString }.

Record CompletionRequest := {
  model : JsString;
  messages : list Message;
  temperature : Q;
  response_format : AdListSchema;
}.

Inductive Call :=
| AxiosGet (url : JsString) (timeout : N) (user_agent : JsString)
| ChatCompletionsCreate (apiKey : JsString) (request : CompletionRequest).

(** What a request meets outside the handler. *)
Record World := {
  (* [response.data] of [axios.get], or its rejection *)
  axios_get : JsString -> Outcome JsString;
  (* [$("h1").first().text()] on the loaded markup *)
  cheerio_h1_text : JsString -> JsString;
  (* [$(selector).attr("content")] on the loaded markup *)
  cheerio_attr_content : JsString -> JsString -> option JsString;
  (* [process.env.OPENAI_API_KEY] *)
  env_OPENAI_API_KEY : option JsString;
  (* [completion.choices?.[0]?.message?.content], or the rejection *)
  chat_completions_create : CompletionRequest -> Outcome (option JsString);
}.

(** The world [w] in which the completion API answers with the text [c]. *)
Definition answering (w : World) (c : JsString) : World :=
  {| axios_get := axios_get w;
     cheerio_h1_text := cheerio_h1_text w;
     cheerio_attr_content := cheerio_attr_content w;
     env_OPENAI_API_KEY := env_OPENAI_API_KEY w;
     chat_completions_create := fun _ => Returned (Some c) |}.

(** Handler code: reads the world, appends to the log of outbound calls,
    returns or throws. *)
Definition M (A : Type) : Type := World -> list Call -> Outcome A * list Call.

Definition ret {A} (a : A) : M A := fun _ log => (Returned a, log).

Definition throw {A} (e : JsError) : M A := fun _ log => (Thrown e, log).

Definition bind {A B} (m : M A) (k : A -> M B) : M B :=
  fun w log =>
    match m w log with
    | (Returned a, log') => k a w log'
    | (Thrown e, log') => (Thrown e, log')
    end.

Definition lift {A} (o : Outcome A) : M A := fun _ log => (o, log).

Definition ask : M World := fun w log => (Returned w, log).

Definition emit (c : Call) : M unit := fun _ log => (Returned tt, log ++ [c]).

Notation "x <- m ;; k" := (bind m (fun x => k))
  (at level 61, m at next level, right associativity).
Notation "m ;;; k" := (bind m (fun _ => k))
  (at level 61, right associativity).

(** [NextResponse.json(body, { status })]. *)
Record Response (B : Type) := { body : B; status : Z }.
Arguments body {B} r.
Arguments status {B} r.

Definition NextResponse_json {B} (b : B) (st : Z) : Response B :=
  {| body := b; status := st |}.

Record AdItem := {
  title : JsString;
  description : JsString;
  cta : JsString;
}.

Definition q (s : string) : JsString := dq ++ js s ++ dq.
Arguments q s%_string.

(** [s] or else the empty string, [s] or else [d], and the truthiness of
    an optional string. *)
Definition or_empty (s : option JsString) : JsString :=
  match s with Some x => x | None => [] end.

Definition or_default (s : option JsString) (d : JsString) : JsString :=
  match s with
  | Some x => if nonempty x then x else d
  | None => d
  end.

Definition str_truthy (s : option JsString) : bool :=
  match s with Some x => nonempty x | None => false end.

Definition present {A} (o : option A) : bool :=
  match o with Some _ => true | None => false end.

(** [error?.message || fallback] and
    [error instanceof Error ? error.message : fallback]. *)
Definition message_or (e : JsError) (fallback : JsString) : JsString :=
  match e with
  | ErrorObject m => if nonempty m then m else fallback
  | ThrownValue m => or_default m fallback
  end.

Definition error_message_else (e : JsError) (fallback : JsString) : JsString :=
  match e with
  | ErrorObject m => m
  | ThrownValue _ => fallback
  end.

(** Runs a handler wrapped in its [try { ... } catch (error) { ... }]. *)
Definition try_catch {A} (m : M A) (handler : JsError -> A)
    (w : World) : A * list Call :=
  match m w [] with
  | (Returned a, log) => (a, log)
  | (Thrown e, log) => (handler e, log)
  end.

(** ** The generation route *)

Module Generate.

(** The request body, as the route types what [req.json()] resolves to. *)
Record GenerateBody := {
  url : option JsString;
  customPrompt : option JsString;
  language : option JsString;
  variantOf : option AdItem;
}.

Definition sharedGuidelines (productUrl : JsString)
    (title metaDescription : option JsString) (language : JsString)
    : JsString :=
  nl ++
  js "Context:" ++ nl ++
  js "- Product URL: " ++ productUrl ++ nl ++
  js "- Page title (h1): " ++ or_empty title ++ nl ++
  js "- Meta description: " ++ or_empty metaDescription ++ nl ++
  nl ++
  js "Style guidelines (match these exactly):" ++ nl ++
  js "- Catchy title with an emoji at the start (e.g., âœ¨, â˜€ï¸, ğŸŒ§ï¸, âš¡)" ++ nl ++
  js "- Description must be short, scannable bullet-like lines with emojis" ++ nl ++
  js "- 3â€“5 lines in the description, no URLs and no CTA inside description" ++ nl ++
  nl ++
  js "Rules:" ++ nl ++
  js "- title: max 9 words, start with an emoji" ++ nl ++
  js "- description: 3â€“6 kratkih vrstic, vsaka vrstica naj se zaÄne z emoji ali kratko frazo" ++ nl ++
  js "- cta: 1â€“5 besed; pick a CTA that BEST fits the page intent (infer from URL, h1, meta). It may include a leading emoji and/or a trailing down arrow (" ++ q "ğŸ‘‡" ++ js ")." ++ nl ++
  js "- Äe gre za eâ€‘commerce produkt/koÅ¡arico/checkout: uporabi " ++ q "Kupi" ++ js " ali " ++ q "NaroÄi zdaj" ++ nl ++
  js "- Äe gre za informativno/landing stran ali blog: uporabi " ++ q "Izvedi veÄ" ++ nl ++
  js "- Äe gre za prijavo/registracijo: uporabi " ++ q "Prijavi se" ++ nl ++
  js "- Äe gre za kontakt/storitve/ponudbo: uporabi " ++ q "Kontaktiraj nas" ++ js " ali " ++ q "Zahtevaj ponudbo" ++ nl ++
  js "IMPORTANT: All text (title, description, CTA) MUST be written in " ++ language ++ js ". Do not use any other language. Avoid untranslated words." ++ nl ++
  js "Vsak od treh oglasov naj ima CTA, ki je lahko razliÄen, vendar vedno skladen z namenom strani." ++ nl ++
  nl ++
  js "Return a JSON object with key " ++ q "ads" ++ js " whose value is an array of 3 items. Each item must include keys: title, description, cta. Example:" ++ nl ++
  js "{" ++ q "ads" ++ js ":[" ++ nl ++
  js "  {" ++ q "title" ++ js ":" ++ q "..." ++ js "," ++ q "description" ++ js ":" ++ q "..." ++ js "," ++ q "cta" ++ js ":" ++ q "<primeren CTA glede na namen>" ++ js "}," ++ nl ++
  js "  {" ++ q "title" ++ js ":" ++ q "..." ++ js "," ++ q "description" ++ js ":" ++ q "..." ++ js "," ++ q "cta" ++ js ":" ++ q "<primeren CTA glede na namen>" ++ js "}," ++ nl ++
  js "  {" ++ q "title" ++ js ":" ++ q "..." ++ js "," ++ q "description" ++ js ":" ++ q "..." ++ js "," ++ q "cta" ++ js ":" ++ q "<primeren CTA glede na namen>" ++ js "}" ++ nl ++
  js "]}".

Definition buildPrompt (productUrl : JsString)
    (title metaDescription customPrompt : option JsString)
    (variantOf : option AdItem) (language : JsString) : JsString :=
  let sharedGuidelines :=
    sharedGuidelines productUrl title metaDescription language in
  match variantOf with
  | Some {| title := vTitle; description := vDescription; cta := vCta |} =>
      let base :=
        vTitle ++ nl ++ nl ++ vDescription ++ nl ++ nl ++ js "CTA: " ++ vCta in
      js "You are a performance Facebook ads copywriter." ++ nl ++
      js "Generate EXACTLY 3 similar VARIATIONS to the given base ad, keeping the same CTA. Language: " ++ language ++ js "." ++ nl ++
      nl ++
      js "Base ad:" ++ nl ++ base ++ nl ++
      nl ++
      js "Guidelines:" ++ nl ++
      js "- Keep the core benefits and style (emoji title + bullet-like short lines)" ++ nl ++
      js "- Avoid repeating the exact same phrases; rephrase creatively" ++ nl ++
      js "- Keep CTA identical to the base ad's CTA" ++ nl ++
      js "- Respect the previous style rules (max title length, 3â€“6 short lines, no URLs)" ++ nl ++
      nl ++
      js "Return a JSON object with key " ++ q "ads" ++ js " whose value is an array of items with keys: title, description, cta. Example:" ++ nl ++
      js "{" ++ q "ads" ++ js ":[{" ++ q "title" ++ js ":" ++ q "..." ++ js "," ++ q "description" ++ js ":" ++ q "..." ++ js "," ++ q "cta" ++ js ":" ++ dq ++ vCta ++ dq ++ js "}]]}"
  | None =>
      match customPrompt with
      | Some cp =>
          if nonempty (trim cp) then
            cp ++ nl ++ nl ++ js "Generate EXACTLY 3 distinct Facebook ad variations in " ++ language ++ js ". Output strictly JSON." ++ nl ++ sharedGuidelines
          else
            js "You are a performance Facebook ads copywriter." ++ nl ++
            js "Generate EXACTLY 3 distinct Facebook ad variations." ++ nl ++
            js " Language: " ++ language ++ js ". Be persuasive, concise, and compliant. Output JSON only." ++ nl ++
            nl ++
            sharedGuidelines
      | None =>
            js "You are a performance Facebook ads copywriter." ++ nl ++
            js "Generate EXACTLY 3 distinct Facebook ad variations." ++ nl ++
            js " Language: " ++ language ++ js ". Be persuasive, concise, and compliant. Output JSON only." ++ nl ++
            nl ++
            sharedGuidelines
      end
  end.

Record ScrapeResult := {
  h1 : option JsString;
  meta : option JsString;
}.

(** [a || b] on optional strings. *)
Definition opt_or (a b : option JsString) : option JsString :=
  if str_truthy a then a else b.

Definition scrapePage (url : JsString) : M ScrapeResult :=
  emit (AxiosGet url 15000 (js "Mozilla/5.0")) ;;;
  w <- ask ;;
  html <- lift (axios_get w url) ;;
  let h1 := opt_or (Some (trim (cheerio_h1_text w html))) None in
  let meta :=
    opt_or
      (opt_or
         (option_map trim
            (cheerio_attr_content w html
               (js "meta[name=" ++ q "description" ++ js "]")))
         (option_map trim
            (cheerio_attr_content w html
               (js "meta[property=" ++ q "og:description" ++ js "]"))))
      None in
  ret {| h1 := h1; meta := meta |}.

Record Source := {
  source_url : option JsString;
  source_h1 : option JsString;
  source_meta : option JsString;
  variant : bool;
}.

(** The two shapes of body the route answers with: the success body
    [{ source, ads }] and the error body [{ error, raw?, items? }]. *)
Inductive GenerateJson :=
| Ads (source : Source) (ads : list AdItem)
| Failure (error : JsString) (raw : option JsString)
    (items : option (list AdItem)).

Definition systemMessage (lang : JsString) : JsString :=
  js "You output strictly the requested JSON and nothing else. Respond ONLY in " ++ lang ++ js ". Do not use any other language.".

Definition completionRequest (lang prompt : JsString) : CompletionRequest :=
  {| model := js "gpt-4o-mini";
     messages :=
       [ {| role := js "system"; content := systemMessage lang |};
         {| role := js "user"; content := prompt |} ];
     temperature := 2 # 10;
     response_format :=
       {| schema_name := js "ad_list";
          minItems := Some 3%nat; maxItems := Some 3%nat |} |}.

Section Route.
Context `{JsRuntime}.

(** The [try] block around the first [JSON.parse]: [None] when it throws
    (a SyntaxError, or the route's own "Unexpected JSON shape"). *)
Definition parseStrict (content : JsString) : option (list Value) :=
  match JSON_parse content with
  | None => None
  | Some json =>
      match json with
      | JArr items => Some items
      | _ =>
          if truthy json then
            match prop json (js "ads") with
            | Some (JArr items) => Some items
            | _ => None
            end
          else None
      end
  end.

(** The inner [try] of the [catch] block; [parsed] stays [[]] unless the
    slice parses as an array. *)
Definition parseBracketed (content : JsString) : list Value :=
  let start := indexOf content 91%N in      (* the opening bracket *)
  let end_ := lastIndexOf content 93%N in   (* the closing bracket *)
  if (negb (start =? -1) && negb (end_ =? -1) && (end_ >? start))%Z then
    let slice := slice content start (end_ + 1)%Z in
    match JSON_parse slice with
    | Some (JArr arr) => arr
    | _ => []
    end
  else [].

(** [parsed] after the whole [try]/[catch]: the [catch] block runs when
    the [try] block threw, and leaves through its [return] ([None]) when
    [parsed] is still empty after the fallback. *)
Definition parseCompletion (content : JsString) : option (list Value) :=
  match parseStrict content with
  | Some parsed => Some parsed
  | None =>
      match parseBracketed content with
      | [] => None
      | parsed => Some parsed
      end
  end.

(** The coercion of one property, which may be missing: [String] of the
    value or of the empty string, trimmed. *)
Definition field (v : option Value) : JsString :=
  trim (ToString (or_else v (JStr []))).

(** The callback of [map]; reading a property of [null] throws. *)
Definition normalizeItem (item : Value) : Outcome AdItem :=
  match item with
  | JNull =>
      Thrown (ErrorObject
                (js "Cannot read properties of null (reading 'title')"))
  | _ =>
      Returned {| title := field (prop item (js "title"));
                  description := field (prop item (js "description"));
                  cta := field (prop item (js "cta")) |}
  end.

Fixpoint mapItems (l : list Value) : Outcome (list AdItem) :=
  match l with
  | [] => Returned []
  | item :: r =>
      match normalizeItem item with
      | Thrown e => Thrown e
      | Returned a =>
          match mapItems r with
          | Thrown e => Thrown e
          | Returned l' => Returned (a :: l')
          end
      end
  end.

Definition complete (a : AdItem) : bool :=
  nonempty (title a) && nonempty (description a) && nonempty (cta a).

(** [parsed.slice(0, 3).map(...).filter(...)]. *)
Definition normalize (parsed : list Value) : Outcome (list AdItem) :=
  match mapItems (firstn 3 parsed) with
  | Thrown e => Thrown e
  | Returned l => Returned (filter complete l)
  end.

Definition respond (req : GenerateBody) (scraped : ScrapeResult)
    (parsed : list Value) : M (Response GenerateJson) :=
  normalized <- lift (normalize parsed) ;;
  if (length normalized <? 3)%nat then
    ret (NextResponse_json
           (Failure (js "Prejetih je premalo oglasov.") None (Some normalized))
           502)
  else
    ret (NextResponse_json
           (Ads {| source_url := url req;
                   source_h1 := h1 scraped;
                   source_meta := meta scraped;
                   variant := present (variantOf req) |}
                normalized)
           200).

Definition handle (req : GenerateBody) : M (Response GenerateJson) :=
  if negb (str_truthy (url req)) && negb (present (variantOf req)) then
    ret (NextResponse_json
           (Failure (js "Zahteva mora vsebovati 'url' ali 'variantOf'.")
              None None)
           400)
  else
    scraped <- (if str_truthy (url req)
                then scrapePage (or_empty (url req))
                else ret {| h1 := None; meta := None |}) ;;
    w <- ask ;;
    if negb (str_truthy (env_OPENAI_API_KEY w)) then
      ret (NextResponse_json
             (Failure (js "Manjka okoljska spremenljivka OPENAI_API_KEY.")
                None None)
             500)
    else
      let apiKey := or_empty (env_OPENAI_API_KEY w) in
      let lang := or_default (language req) (js "Slovenian") in
      let prompt :=
        buildPrompt (or_empty (url req)) (h1 scraped) (meta scraped)
          (customPrompt req) (variantOf req) lang in
      let request := completionRequest lang prompt in
      emit (ChatCompletionsCreate apiKey request) ;;;
      completion <- lift (chat_completions_create w request) ;;
      let content := or_empty (option_map trim completion) in
      match parseCompletion content with
      | None =>
          ret (NextResponse_json
                 (Failure (js "Neveljaven JSON iz OpenAI.") (Some content)
                    None)
                 502)
      | Some parsed => respond req scraped parsed
      end.

Definition POST (w : World) (req : GenerateBody)
    : Response GenerateJson * list Call :=
  try_catch (handle req)
    (fun error =>
       NextResponse_json
         (Failure (message_or error (js "Neznana napaka")) None None) 500)
    w.

End Route.

End Generate.

(** ** The translation route *)

Module Translate.

(** The success body [{ ads }], whose items are handed on as parsed, and
    the error body [{ error, raw? }]. *)
Inductive TranslateJson {Num : Type} :=
| Ads (ads : list (JsValue Num))
| Failure (error : JsString) (raw : option JsString).
Arguments TranslateJson Num : clear implicits.

Definition schema : AdListSchema :=
  {| schema_name := js "ad_list_translation";
     minItems := None; maxItems := None |}.

Section Route.
Context `{JsRuntime}.

Definition prompt (ads targetLanguage : Value) : JsString :=
  js "Translate each ad to " ++
    ToString targetLanguage ++
    js ". Keep the persuasive style and emojis. Keep CTA short and natural for " ++
    ToString targetLanguage ++
    js ". Return JSON with key " ++
    q "ads" ++
    js " as an array of {title, description, cta}." ++
    nl ++
    nl ++
    js "Ads to translate:" ++
    nl ++
    JSON_stringify ads 2.

Definition completionRequest (ads targetLanguage : Value)
    : CompletionRequest :=
  {| model := js "gpt-4o-mini";
     messages :=
       [ {| role := js "system";
            content :=
              js "You output strictly the requested JSON and nothing else." |};
         {| role := js "user"; content := prompt ads targetLanguage |} ];
     temperature := 2 # 10;
     response_format := schema |}.

(** [result] after the [try] block: [parsed?.ads] when it is an array,
    [[]] otherwise and when [JSON.parse] throws. *)
Definition parseAds (content : JsString) : list Value :=
  match JSON_parse content with
  | Some parsed =>
      match prop parsed (js "ads") with
      | Some (JArr result) => result
      | _ => []
      end
  | None => []
  end.

Definition badRequest : Response (TranslateJson Num) :=
  NextResponse_json
    (Failure (js "Manjkajo podatki: ads ali targetLanguage.") None) 400.

(** [body] is what [req.json()] resolved to. *)
Definition handle (body : Value) : M (Response (TranslateJson Num)) :=
  match body with
  | JNull =>
      throw (ErrorObject
               (js "Cannot destructure property 'ads' of '(intermediate value)' as it is null."))
  | _ =>
      match prop body (js "ads"), prop body (js "targetLanguage") with
      | Some (JArr items), Some targetLanguage =>
          if negb (truthy targetLanguage) then ret badRequest
          else
            w <- ask ;;
            if negb (str_truthy (env_OPENAI_API_KEY w)) then
              ret (NextResponse_json
                     (Failure
                        (js "Manjka okoljska spremenljivka OPENAI_API_KEY.")
                        None)
                     500)
            else
              let apiKey := or_empty (env_OPENAI_API_KEY w) in
              let request := completionRequest (JArr items) targetLanguage in
              emit (ChatCompletionsCreate apiKey request) ;;;
              completion <- lift (chat_completions_create w request) ;;
              let content := or_empty (option_map trim completion) in
              match parseAds content with
              | [] =>
                  ret (NextResponse_json
                         (Failure (js "Neveljaven JSON iz OpenAI.")
                            (Some content))
                         502)
              | result => ret (NextResponse_json (Ads result) 200)
              end
      | _, _ => ret badRequest
      end
  end.

Definition POST (w : World) (body : Value)
    : Response (TranslateJson Num) * list Call :=
  try_catch (handle body)
    (fun error =>
       NextResponse_json
         (Failure (error_message_else error (js "Neznana napaka")) None) 500)
    w.

End Route.

End Translate.

(** ** A reference runtime

    An executable instance of the built-ins, to run the routes on concrete
    texts.  Numbers are the integers between -(2^53 - 1) and 2^53 - 1,
    written without fraction or exponent; a text with any other number
    literal is outside the reference parser, which answers [None] on it. *)

Module Ref.

Definition V : Type := JsValue Z.

Definition is_json_ws (c : N) : bool :=
  ((c =? 0x20) || (c =? 0x09) || (c =? 0x0A) || (c =? 0x0D))%N.

Fixpoint skip_ws (s : JsString) : JsString :=
  match s with
  | c :: r => if is_json_ws c then skip_ws r else s
  | [] => []
  end.

Definition hex_digit (c : N) : option N :=
  if ((48 <=? c) && (c <=? 57))%N then Some (c - 48)%N
  else if ((65 <=? c) && (c <=? 70))%N then Some (c - 55)%N
  else if ((97 <=? c) && (c <=? 102))%N then Some (c - 87)%N
  else None.

Definition hex4 (a b c d : N) : option N :=
  match hex_digit a, hex_digit b, hex_digit c, hex_digit d with
  | Some x, Some y, Some z, Some t =>
      Some (((x * 16 + y) * 16 + z) * 16 + t)%N
  | _, _, _, _ => None
  end.

Definition escape (c : N) : option N :=
  match c with
  | 34%N => Some 34%N      (* the quote *)
  | 92%N => Some 92%N      (* the backslash *)
  | 47%N => Some 47%N      (* the slash *)
  | 98%N => Some 8%N       (* \b *)
  | 102%N => Some 12%N     (* \f *)
  | 110%N => Some 10%N     (* \n *)
  | 114%N => Some 13%N     (* \r *)
  | 116%N => Some 9%N      (* \t *)
  | _ => None
  end.

(** The characters of a string literal after its opening quote, up to and
    including the closing one; [acc] is what was read, reversed. *)
Fixpoint string_chars (s : JsString) (acc : JsString)
    : option (JsString * JsString) :=
  match s with
  | [] => None
  | c :: r =>
      if (c =? 34)%N then Some (rev acc, r)
      else if (c =? 92)%N then
        match r with
        | 117%N :: a :: b :: x :: y :: r' =>
            match hex4 a b x y with
            | Some u => string_chars r' (u :: acc)
            | None => None
            end
        | e :: r' =>
            match escape e with
            | Some u => string_chars r' (u :: acc)
            | None => None
            end
        | [] => None
        end
      else if (c <? 0x20)%N then None
      else string_chars r (c :: acc)
  end.

Definition is_digit (c : N) : bool := ((48 <=? c) && (c <=? 57))%N.

Fixpoint digits (s : JsString) (acc : Z) : Z * JsString :=
  match s with
  | c :: r =>
      if is_digit c then digits r (acc * 10 + Z.of_N (c - 48))%Z else (acc, s)
  | [] => (acc, [])
  end.

Definition MAX_SAFE_INTEGER : Z := 2 ^ 53 - 1.

(** An integer literal: 0, or a nonzero digit followed by digits; a
    fraction or exponent after it, or a value out of range, is refused. *)
Definition unsigned_integer (s : JsString) : option (Z * JsString) :=
  match s with
  | c :: r =>
      if negb (is_digit c) then None
      else
        let (n, rest) := if (c =? 48)%N then (0%Z, r) else digits s 0%Z in
        match rest with
        | d :: _ =>
            if is_digit d || (d =? 46)%N || (d =? 101)%N || (d =? 69)%N
            then None
            else if (n <=? MAX_SAFE_INTEGER)%Z then Some (n, rest) else None
        | [] => if (n <=? MAX_SAFE_INTEGER)%Z then Some (n, rest) else None
        end
  | [] => None
  end.

(** [CreateDataProperty]: a repeated key keeps its place and takes the
    later value. *)
Fixpoint define (props : list (JsString * V)) (k : JsString) (v : V)
    : list (JsString * V) :=
  match props with
  | [] => [(k, v)]
  | (k', v') :: r =>
      if str_eqb k k' then (k', v) :: r else (k', v') :: define r k v
  end.

Fixpoint value (fuel : nat) (s : JsString) {struct fuel}
    : option (V * JsString) :=
  match fuel with
  | O => None
  | S fuel' =>
      match skip_ws s with
      | 110%N :: 117%N :: 108%N :: 108%N :: r => Some (JNull, r)
      | 116%N :: 114%N :: 117%N :: 101%N :: r => Some (JBool true, r)
      | 102%N :: 97%N :: 108%N :: 115%N :: 101%N :: r => Some (JBool false, r)
      | 34%N :: r =>
          match string_chars r [] with
          | Some (str, rest) => Some (JStr str, rest)
          | None => None
          end
      | 91%N :: r =>
          match skip_ws r with
          | 93%N :: rest => Some (JArr [], rest)
          | _ =>
              match elements fuel' r [] with
              | Some (items, rest) => Some (JArr items, rest)
              | None => None
              end
          end
      | 123%N :: r =>
          match skip_ws r with
          | 125%N :: rest => Some (JObj [], rest)
          | _ =>
              match members fuel' r [] with
              | Some (props, rest) => Some (JObj props, rest)
              | None => None
              end
          end
      | 45%N :: r =>
          match unsigned_integer r with
          | Some (n, rest) => Some (JNum (- n)%Z, rest)
          | None => None
          end
      | r =>
          match unsigned_integer r with
          | Some (n, rest) => Some (JNum n, rest)
          | None => None
          end
      end
  end

with elements (fuel : nat) (s : JsString) (acc : list V) {struct fuel}
    : option (list V * JsString) :=
  match fuel with
  | O => None
  | S fuel' =>
      match value fuel' s with
      | Some (v, rest) =>
          match skip_ws rest with
          | 44%N :: rest' => elements fuel' rest' (v :: acc)
          | 93%N :: rest' => Some (rev (v :: acc), rest')
          | _ => None
          end
      | None => None
      end
  end

with members (fuel : nat) (s : JsString) (acc : list (JsString * V))
    {struct fuel} : option (list (JsString * V) * JsString) :=
  match fuel with
  | O => None
  | S fuel' =>
      match skip_ws s with
      | 34%N :: r =>
          match string_chars r [] with
          | Some (k, rest) =>
              match skip_ws rest with
              | 58%N :: rest' =>
                  match value fuel' rest' with
                  | Some (v, rest'') =>
                      match skip_ws rest'' with
                      | 44%N :: t => members fuel' t (define acc k v)
                      | 125%N :: t => Some (define acc k v, t)
                      | _ => None
                      end
                  | None => None
                  end
              | _ => None
              end
          | None => None
          end
      | _ => None
      end
  end.

(** [JSON.parse(text)]: one value, with nothing but white space after it. *)
Definition parse (text : JsString) : option V :=
  match value (2 * length text + 2) text with
  | Some (v, rest) =>
      match skip_ws rest with
      | [] => Some v
      | _ :: _ => None
      end
  | None => None
  end.

(** [Number.prototype.toString] on these integers. *)
Definition toString (n : Z) : JsString :=
  js (NilZero.string_of_int (Z.to_int n)).

Definition hex_char (d : N) : N :=
  if (d <? 10)%N then (48 + d)%N else (87 + d)%N.

Definition unicode_escape (c : N) : JsString :=
  js "\u" ++ [hex_char (c / 4096); hex_char (c / 256 mod 16);
              hex_char (c / 16 mod 16); hex_char (c mod 16)].

Definition is_high_surrogate (c : N) : bool :=
  ((0xD800 <=? c) && (c <=? 0xDBFF))%N.

Definition is_low_surrogate (c : N) : bool :=
  ((0xDC00 <=? c) && (c <=? 0xDFFF))%N.

Fixpoint quote_chars (s : JsString) : JsString :=
  match s with
  | [] => []
  | c :: r =>
      if (c =? 8)%N then js "\b" ++ quote_chars r
      else if (c =? 9)%N then js "\t" ++ quote_chars r
      else if (c =? 10)%N then js "\n" ++ quote_chars r
      else if (c =? 12)%N then js "\f" ++ quote_chars r
      else if (c =? 13)%N then js "\r" ++ quote_chars r
      else if (c =? 34)%N then 92%N :: 34%N :: quote_chars r
      else if (c =? 92)%N then 92%N :: 92%N :: quote_chars r
      else if (c <? 0x20)%N then unicode_escape c ++ quote_chars r
      else if is_high_surrogate c then
        match r with
        | d :: r' =>
            if is_low_surrogate d then c :: d :: quote_chars r'
            else unicode_escape c ++ quote_chars r
        | [] => unicode_escape c
        end
      else if is_low_surrogate c then unicode_escape c ++ quote_chars r
      else c :: quote_chars r
  end.

(** QuoteJSONString. *)
Definition quote (s : JsString) : JsString := dq ++ quote_chars s ++ dq.

(** A key that is an array index: a canonical numeric string below
    2^32 - 1.  Such keys are enumerated first, in ascending order. *)
Definition array_index (k : JsString) : option Z :=
  match k with
  | [] => None
  | c :: r =>
      if (c =? 48)%N then match r with [] => Some 0%Z | _ :: _ => None end
      else
        match digits k 0%Z with
        | (n, []) => if (n <? 2 ^ 32 - 1)%Z then Some n else None
        | (_, _ :: _) => None
        end
  end.

Fixpoint insert_index {A} (i : Z) (x : A) (l : list (Z * A)) : list (Z * A) :=
  match l with
  | [] => [(i, x)]
  | (j, y) :: r =>
      if (i <? j)%Z then (i, x) :: l else (j, y) :: insert_index i x r
  end.

(** OrdinaryOwnPropertyKeys, on members listed in creation order. *)
Fixpoint own_order {A} (l : list (JsString * A))
    : list (Z * (JsString * A)) * list (JsString * A) :=
  match l with
  | [] => ([], [])
  | (k, x) :: r =>
      let (idx, str) := own_order r in
      match array_index k with
      | Some i => (insert_index i (k, x) idx, str)
      | None => (idx, (k, x) :: str)
      end
  end.

Definition ordered {A} (l : list (JsString * A)) : list (JsString * A) :=
  let (idx, str) := own_order l in map snd idx ++ str.

Definition wrap (open_ close gap stepback : JsString)
    (parts : list JsString) : JsString :=
  match parts with
  | [] => open_ ++ close
  | _ :: _ =>
      match gap with
      | [] => open_ ++ join (js ",") parts ++ close
      | _ :: _ =>
          let indent := stepback ++ gap in
          open_ ++ nl ++ indent ++ join (js "," ++ nl ++ indent) parts
            ++ nl ++ stepback ++ close
      end
  end.

(** SerializeJSONProperty at the current indentation [stepback]. *)
Fixpoint serialize (gap stepback : JsString) (v : V) : JsString :=
  match v with
  | JNull => js "null"
  | JBool true => js "true"
  | JBool false => js "false"
  | JNum n => toString n
  | JStr s => quote s
  | JArr items =>
      wrap (js "[") (js "]") gap stepback
        (map (serialize gap (stepback ++ gap)) items)
  | JObj props =>
      let sep := match gap with [] => js ":" | _ :: _ => js ": " end in
      wrap (js "{") (js "}") gap stepback
        (map (fun kv => quote (fst kv) ++ sep ++ snd kv)
           (ordered
              (map (fun kv => (fst kv, serialize gap (stepback ++ gap) (snd kv)))
                 props)))
  end.

Definition stringify (v : V) (space : nat) : JsString :=
  serialize (repeat 32%N (Nat.min space 10)) [] v.

Definition runtime : JsRuntime :=
  {| Num := Z;
     num_truthy := fun n => negb (n =? 0)%Z;
     Number_toString := toString;
     JSON_parse := parse;
     JSON_stringify := stringify |}.

(** Test texts are written with the apostrophe standing for the double
    quote. *)
Definition text (s : string) : JsString :=
  map (fun c => if (c =? 39)%N then 34%N else c) (js s).
Arguments text s%_string.

End Ref.

(** ** Sample requests and worlds *)

Module Sample.

(** A world with the credential set, one page on the network, and a
    completion API that does not answer. *)
Definition offline : World :=
  {| axios_get := fun _ => Returned (js "<h1> Rain boots </h1>");
     cheerio_h1_text := fun _ => js " Rain boots ";
     cheerio_attr_content := fun _ _ => None;
     env_OPENAI_API_KEY := Some (js "sk-test");
     chat_completions_create :=
       fun _ => Thrown (ErrorObject (js "Connection error.")) |}.

Definition byUrl : Generate.GenerateBody :=
  {| Generate.url := Some (js "https://shop.example/boots");
     Generate.customPrompt := None;
     Generate.language := None;
     Generate.variantOf := None |}.

Definition empty : Generate.GenerateBody :=
  {| Generate.url := None;
     Generate.customPrompt := None;
     Generate.language := None;
     Generate.variantOf := None |}.

Definition threeAds : JsString :=
  Ref.text "{'ads':[{'title':'A','description':'B','cta':'C'},{'title':' D ','description':'E','cta':'F'},{'title':'G','description':'H','cta':'I'}]}".

(** The third item has no cta. *)
Definition twoValid : JsString :=
  Ref.text "{'ads':[{'title':'A','description':'B','cta':'C'},{'title':'D','description':'E','cta':'F'},{'title':'G','description':'H'}]}".

Definition twoAds : JsString :=
  Ref.text "{'ads':[{'title':'A','description':'B','cta':'C'},{'title':'D','description':'E','cta':'F'}]}".

Definition bareArray : JsString :=
  Ref.text "[{'title':'A','description':'B','cta':'C'}]".

Definition wrappedArray : JsString :=
  Ref.text "{'ads':[{'title':'A','description':'B','cta':'C'}]}".

Definition untrimmed : JsString :=
  Ref.text "{'ads':[{'title':' A '}]}".

Definition truncated : JsString :=
  Ref.text "{'ads':[{'title':'A'".

(** One ad to translate into German. *)
Definition toGerman : Ref.V :=
  JObj [ (js "ads",
          JArr [ JObj [ (js "title", JStr (js "A"));
                        (js "description", JStr (js "B"));
                        (js "cta", JStr (js "C")) ] ]);
         (js "targetLanguage", JStr (js "German")) ].

End Sample.

(** ** Notions used in the statements *)

Definition clean_head (s : JsString) : Prop :=
  match s with
  | [] => True
  | c :: _ => is_white_space c = false
  end.

(** A text field as the Normalizer leaves it: it is its own trimming, and
    it is not empty. *)
Definition trimmed_nonempty (s : JsString) : Prop :=
  trim s = s /\ s <> [].

Definition trimmed_ad (a : AdItem) : Prop :=
  trim (title a) = title a /\ trim (description a) = description a
  /\ trim (cta a) = cta a.

Definition valid_ad (a : AdItem) : Prop :=
  trimmed_nonempty (title a) /\ trimmed_nonempty (description a)
  /\ trimmed_nonempty (cta a).

Section Notions.
Context `{JsRuntime}.

(** A parsed item that would pass for normalized: its three fields are
    strings, trimmed and not empty. *)
Definition trimmed_text (o : option Value) : Prop :=
  exists s, o = Some (JStr s) /\ trimmed_nonempty s.

Definition normalized_item (v : Value) : Prop :=
  trimmed_text (prop v (js "title"))
  /\ trimmed_text (prop v (js "description"))
  /\ trimmed_text (prop v (js "cta")).

(** The generation request gets as far as the completion call: it names a
    url or a base ad, the page (if any) is fetched, the credential is set. *)
Definition generation_reaches_upstream (w : World)
    (req : Generate.GenerateBody) : Prop :=
  (str_truthy (Generate.url req) = true
   \/ present (Generate.variantOf req) = true)
  /\ (str_truthy (Generate.url req) = true ->
      exists html, axios_get w (or_empty (Generate.url req)) = Returned html)
  /\ str_truthy (env_OPENAI_API_KEY w) = true.

(** The translation request gets as far as the completion call: ads is an
    array, targetLanguage is truthy, the credential is set. *)
Definition translation_reaches_upstream (w : World) (body : Value) : Prop :=
  (exists items t,
      prop body (js "ads") = Some (JArr items)
      /\ prop body (js "targetLanguage") = Some t /\ truthy t = true)
  /\ str_truthy (env_OPENAI_API_KEY w) = true.

(** The generation route in three pure steps, for the proofs: the scrape,
    the request sent upstream, and the answer built from the completion
    text. *)
Definition scraping (w : World) (req : Generate.GenerateBody)
    : Outcome Generate.ScrapeResult * list Call :=
  if str_truthy (Generate.url req) then
    Generate.scrapePage (or_empty (Generate.url req)) w []
  else (Returned {| Generate.h1 := None; Generate.meta := None |}, []).

Definition request_of (req : Generate.GenerateBody)
    (sc : Generate.ScrapeResult) : CompletionRequest :=
  let lang := or_default (Generate.language req) (js "Slovenian") in
  Generate.completionRequest lang
    (Generate.buildPrompt (or_empty (Generate.url req)) (Generate.h1 sc)
       (Generate.meta sc) (Generate.customPrompt req)
       (Generate.variantOf req) lang).

Definition crashed (e : JsError) : Response Generate.GenerateJson :=
  NextResponse_json
    (Generate.Failure (message_or e (js "Neznana napaka")) None None) 500.

Definition parse_failure (content : JsString)
    : Response Generate.GenerateJson :=
  NextResponse_json
    (Generate.Failure (js "Neveljaven JSON iz OpenAI.") (Some content) None)
    502.

Definition too_few (items : list AdItem) : Response Generate.GenerateJson :=
  NextResponse_json
    (Generate.Failure (js "Prejetih je premalo oglasov.") None (Some items))
    502.

Definition success (req : Generate.GenerateBody)
    (sc : Generate.ScrapeResult) (ads : list AdItem)
    : Response Generate.GenerateJson :=
  NextResponse_json
    (Generate.Ads
       {| Generate.source_url := Generate.url req;
          Generate.source_h1 := Generate.h1 sc;
          Generate.source_meta := Generate.meta sc;
          Generate.variant := present (Generate.variantOf req) |}
       ads)
    200.

Definition answer (req : Generate.GenerateBody)
    (sc : Generate.ScrapeResult) (content : JsString)
    : Response Generate.GenerateJson :=
  match Generate.parseCompletion content with
  | None => parse_failure content
  | Some parsed =>
      match Generate.normalize parsed with
      | Thrown e => crashed e
      | Returned l =>
          if (length l <? 3)%nat then too_few l else success req sc l
      end
  end.

(** The same for the translation route: the answer built from the
    completion text. *)
Definition invalid_json (content : JsString)
    : Response (Translate.TranslateJson Num) :=
  NextResponse_json
    (Translate.Failure (js "Neveljaven JSON iz OpenAI.") (Some content)) 502.

Definition translated (content : JsString)
    : Response (Translate.TranslateJson Num) :=
  match Translate.parseAds content with
  | [] => invalid_json content
  | result => NextResponse_json (Translate.Ads result) 200
  end.

(** The first tier of the generation parser gives nothing: [JSON.parse]
    throws, or its value is neither an array nor a truthy value with an
    ads array. *)
Definition strict_tier_fails (content : JsString) : Prop :=
  JSON_parse content = None
  \/ exists v,
       JSON_parse content = Some v /\ isArray v = false
       /\ (truthy v = false
           \/ forall items, prop v (js "ads") <> Some (JArr items)).

(** The text between the first opening and the last closing bracket. *)
Definition bracketed (content : JsString) : JsString :=
  slice content (indexOf content 91%N) (lastIndexOf content 93%N + 1)%Z.

End Notions.

(** ** Further notions: calls, errors and checks of the two routes *)

(** The one page fetch of a generation request. *)
Definition scrapeCall (req : Generate.GenerateBody) : Call :=
  AxiosGet (or_empty (Generate.url req)) 15000 (js "Mozilla/5.0").


(** An attribute that is missing or has only white space. *)
Definition blank (o : option JsString) : Prop :=
  o = None \/ exists x, o = Some x /\ trim x = [].

Definition absent_or_clean (o : option JsString) : Prop :=
  o = None \/ exists s, o = Some s /\ trimmed_nonempty s.

(** The two selectors of [scrapePage]. *)
Definition descriptionSelector : JsString :=
  js "meta[name=" ++ q "description" ++ js "]".

Definition ogDescriptionSelector : JsString :=
  js "meta[property=" ++ q "og:description" ++ js "]".

Section RouteNotions.
Context `{JsRuntime}.

(** What the translation route keeps of a body that passes its check:
    the items of ads and the target language. *)
Definition translation_input (payload : Value)
    : option (list Value * Value) :=
  match prop payload (js "ads"), prop payload (js "targetLanguage") with
  | Some (JArr items), Some t => if truthy t then Some (items, t) else None
  | _, _ => None
  end.

Definition translateCall (w : World) (items : list Value) (t : Value)
    : Call :=
  ChatCompletionsCreate (or_empty (env_OPENAI_API_KEY w))
    (Translate.completionRequest (JArr items) t).

Definition translate_crashed (e : JsError)
    : Response (Translate.TranslateJson Num) :=
  NextResponse_json
    (Translate.Failure (error_message_else e (js "Neznana napaka")) None) 500.

Definition translate_missing_key : Response (Translate.TranslateJson Num) :=
  NextResponse_json
    (Translate.Failure (js "Manjka okoljska spremenljivka OPENAI_API_KEY.")
       None) 500.

(** The translation route on a body that is not [null], for the proofs. *)
Definition translate_checked (w : World) (payload : Value)
    : Response (Translate.TranslateJson Num) * list Call :=
  match translation_input payload with
  | None => (Translate.badRequest, [])
  | Some (items, t) =>
      if str_truthy (env_OPENAI_API_KEY w) then
        (match chat_completions_create w
                 (Translate.completionRequest (JArr items) t) with
         | Returned a => translated (or_empty (option_map trim a))
         | Thrown e => translate_crashed e
         end,
         [translateCall w items t])
      else (translate_missing_key, [])
  end.

End RouteNotions.

(** ** More sample worlds and texts *)

Module Cases.

(** The page cannot be fetched. *)
Definition unreachable : World :=
  {| axios_get := fun _ => Thrown (ErrorObject (js "getaddrinfo ENOTFOUND"));
     cheerio_h1_text := fun _ => [];
     cheerio_attr_content := fun _ _ => None;
     env_OPENAI_API_KEY := Some (js "sk-test");
     chat_completions_create := fun _ => Returned None |}.

(** The credential is not set. *)
Definition noKey : World :=
  {| axios_get := fun _ => Returned (js "<h1>Rain boots</h1>");
     cheerio_h1_text := fun _ => js "Rain boots";
     cheerio_attr_content := fun _ _ => None;
     env_OPENAI_API_KEY := None;
     chat_completions_create := fun _ => Returned None |}.

(** A page with a blank description and an Open Graph description. *)
Definition withOg : World :=
  {| axios_get := fun _ => Returned (js "<html></html>");
     cheerio_h1_text := fun _ => js "  ";
     cheerio_attr_content :=
       fun _ sel =>
         if str_eqb sel descriptionSelector then Some (js " ")
         else if str_eqb sel ogDescriptionSelector then Some (js " Dry feet ")
         else None;
     env_OPENAI_API_KEY := Some (js "sk-test");
     chat_completions_create := fun _ => Returned None |}.

Definition byVariant : Generate.GenerateBody :=
  {| Generate.url := None;
     Generate.customPrompt := None;
     Generate.language := Some (js "German");
     Generate.variantOf :=
       Some {| title := js "A"; description := js "B"; cta := js "C" |} |}.

Definition adABC : Ref.V :=
  JObj [(js "title", JStr (js "A")); (js "description", JStr (js "B"));
        (js "cta", JStr (js "C"))].

Definition threeItems : JsString :=
  Ref.text "[{'title':'A','description':'B','cta':'C'},{'title':'A','description':'B','cta':'C'},{'title':'A','description':'B','cta':'C'}]".

Definition fourItems : JsString :=
  Ref.text "[{'title':'A','description':'B','cta':'C'},{'title':'A','description':'B','cta':'C'},{'title':'A','description':'B','cta':'C'},null]".



End Cases.

(** ** The page

    The client component: its state cells, the history kept in
    [localStorage], and its handlers, each run from the state it was
    called in to the state it leaves once its promise has settled. *)

Module Page.

(** [s.replace(pat, empty)] for a string pattern and the empty string:
    the first occurrence of [pat] is removed. *)
Fixpoint strip_prefix (pat s : JsString) : option JsString :=
  match pat, s with
  | [], _ => Some s
  | p :: pat', c :: s' => if (p =? c)%N then strip_prefix pat' s' else None
  | _ :: _, [] => None
  end.

Fixpoint remove_first (pat s : JsString) : JsString :=
  match strip_prefix pat s with
  | Some rest => rest
  | None =>
      match s with
      | [] => []
      | c :: r => c :: remove_first pat r
      end
  end.

Section Client.
Context `{JsRuntime}.

(** [{ ...props, k: v }]: a key already there keeps its place and takes
    the new value. *)
Fixpoint define (props : list (JsString * Value)) (k : JsString) (v : Value)
    : list (JsString * Value) :=
  match props with
  | [] => [(k, v)]
  | (k', v') :: r =>
      if str_eqb k k' then (k', v) :: r else (k', v') :: define r k v
  end.

Definition spread (props entry : list (JsString * Value))
    : list (JsString * Value) :=
  fold_left (fun acc kv => define acc (fst kv) (snd kv)) entry props.

(** The state cells; [ads] and [selectedHistoryId] hold whatever they were
    last set to, [None] for undefined. *)
Record State := {
  url : JsString;
  loading : bool;
  error : option JsString;
  ads : option Value;
  customPrompt : JsString;
  language : JsString;
  translateTo : JsString;
  history : list Value;
  selectedHistoryId : option Value;
}.

(** What [fetch] resolves to: [res.ok] and what [res.json()] settles to. *)
Record FetchResult := { ok : bool; json : Outcome Value }.

(** The browser around the component: the two routes behind [fetch], the
    host name of a URL, the values [crypto.randomUUID()] and [Date.now()]
    return, whether [localStorage] can be used at all and whether it takes
    a text. *)
Record Browser := {
  fetch_generate : Generate.GenerateBody -> Outcome FetchResult;
  fetch_translate : Value -> Outcome FetchResult;
  URL_hostname : JsString -> Outcome JsString;
  randomUUID : JsString;
  Date_now : Num;
  storage_blocked : bool;
  storage_takes : JsString -> bool;
}.

(** The component and the item hs_ads_history of [localStorage]. *)
Record Client := { state : State; stored : option JsString }.

Inductive Sent :=
| ToGenerate (request : Generate.GenerateBody)
| ToTranslate (request : Value).

Definition set_error (e : option JsString) (st : State) : State :=
  {| url := url st; loading := loading st; error := e; ads := ads st;
     customPrompt := customPrompt st; language := language st;
     translateTo := translateTo st; history := history st;
     selectedHistoryId := selectedHistoryId st |}.

Definition set_ads (a : option Value) (st : State) : State :=
  {| url := url st; loading := loading st; error := error st; ads := a;
     customPrompt := customPrompt st; language := language st;
     translateTo := translateTo st; history := history st;
     selectedHistoryId := selectedHistoryId st |}.

Definition set_loading (b : bool) (st : State) : State :=
  {| url := url st; loading := b; error := error st; ads := ads st;
     customPrompt := customPrompt st; language := language st;
     translateTo := translateTo st; history := history st;
     selectedHistoryId := selectedHistoryId st |}.

Definition set_history (h : list Value) (st : State) : State :=
  {| url := url st; loading := loading st; error := error st; ads := ads st;
     customPrompt := customPrompt st; language := language st;
     translateTo := translateTo st; history := h;
     selectedHistoryId := selectedHistoryId st |}.

Definition set_selected (i : option Value) (st : State) : State :=
  {| url := url st; loading := loading st; error := error st; ads := ads st;
     customPrompt := customPrompt st; language := language st;
     translateTo := translateTo st; history := history st;
     selectedHistoryId := i |}.

Definition loadHistory (b : Browser) (c : Client) : Client :=
  if storage_blocked b then c
  else
    match stored c with
    | None => c
    | Some raw =>
        if negb (nonempty raw) then c
        else
          match JSON_parse raw with
          | Some (JArr parsed) =>
              {| state := set_history parsed (state c); stored := stored c |}
          | _ => c
          end
    end.

(** The item after [persistHistory(next)]; a throwing [setItem] is
    swallowed. *)
Definition persistHistory (b : Browser) (next : list Value)
    (item : option JsString) : option JsString :=
  let text := JSON_stringify (JArr next) 0 in
  if storage_blocked b then item
  else if storage_takes b text then Some text else item.

Definition newEntry (b : Browser) (entry : list (JsString * Value)) : Value :=
  JObj (spread [ (js "id", JStr (randomUUID b));
                 (js "createdAt", JNum (Date_now b)) ] entry).

Definition pushHistory (b : Browser) (entry : list (JsString * Value))
    (c : Client) : Client :=
  let e := newEntry b entry in
  let next := firstn 100 (e :: history (state c)) in
  {| state := set_selected (prop e (js "id")) (set_history next (state c));
     stored := persistHistory b next (stored c) |}.

(** The button that clears the history. *)
Definition clearHistory (b : Browser) (c : Client) : Client :=
  {| state := set_history [] (state c);
     stored := persistHistory b [] (stored c) |}.

(** A click on the entry [h] of the history. *)
Definition selectEntry (h : Value) (c : Client) : Client :=
  {| state := set_ads (prop h (js "ads"))
                (set_selected (prop h (js "id")) (state c));
     stored := stored c |}.

(** [throw new Error(data?.error || fallback)] on a response that is not
    ok. *)
Definition responseError (data : Value) (fallback : JsString) : JsError :=
  ErrorObject (ToString (or_else (prop data (js "error")) (JStr fallback))).

(** The [catch] and [finally] of the three handlers. *)
Definition failed (e : JsError) (c : Client) : Client :=
  {| state := set_loading false
                (set_error (Some (error_message_else e (js "Neznana napaka")))
                   (state c));
     stored := stored c |}.

Definition done (c : Client) : Client :=
  {| state := set_loading false (state c); stored := stored c |}.

Definition generateRequest (st : State) : Generate.GenerateBody :=
  {| Generate.url := Some (url st);
     Generate.customPrompt := Some (customPrompt st);
     Generate.language := Some (language st);
     Generate.variantOf := None |}.

Definition onSubmit (b : Browser) (c : Client) : Client * list Sent :=
  let c0 :=
    {| state := set_ads (Some (JArr [])) (set_error None (state c));
       stored := stored c |} in
  if negb (nonempty (url (state c))) then
    ({| state := set_error (Some (js "Vnesi URL produkta.")) (state c0);
        stored := stored c0 |}, [])
  else
    let c1 := {| state := set_loading true (state c0); stored := stored c0 |} in
    let request := generateRequest (state c) in
    (match fetch_generate b request with
     | Thrown e => failed e c1
     | Returned res =>
         match json res with
         | Thrown e => failed e c1
         | Returned data =>
             if negb (ok res) then
               failed (responseError data (js "Napaka pri generiranju.")) c1
             else
               match data with
               | JNull =>
                   failed
                     (ErrorObject
                        (js "Cannot read properties of null (reading 'ads')"))
                     c1
               | _ =>
                   let shown := or_else (prop data (js "ads")) (JArr []) in
                   let c2 :=
                     {| state := set_ads (Some shown) (state c1);
                        stored := stored c1 |} in
                   match URL_hostname b (url (state c)) with
                   | Thrown e => failed e c2
                   | Returned host =>
                       done
                         (pushHistory b
                            [ (js "url", JStr (url (state c)));
                              (js "customPrompt",
                               JStr (customPrompt (state c)));
                              (js "label",
                               JStr (remove_first (js "www.") host));
                              (js "ads", shown) ]
                            c2)
                   end
               end
         end
     end,
     [ToGenerate request]).

Definition translateRequest (st : State) : Value :=
  JObj (match ads st with
        | Some a => [(js "ads", a)]
        | None => []
        end ++ [(js "targetLanguage", JStr (translateTo st))]).

(** The [onClick] of the translate button. *)
Definition onTranslate (b : Browser) (c : Client) : Client * list Sent :=
  let c1 := {| state := set_loading true (state c); stored := stored c |} in
  let request := translateRequest (state c) in
  (match fetch_translate b request with
   | Thrown e => failed e c1
   | Returned res =>
       match json res with
       | Thrown e => failed e c1
       | Returned data =>
           if negb (ok res) then
             failed (responseError data (js "Napaka pri prevodu.")) c1
           else
             match data with
             | JNull =>
                 failed
                   (ErrorObject
                      (js "Cannot read properties of null (reading 'ads')"))
                   c1
             | _ =>
                 let shown := prop data (js "ads") in
                 done
                   (pushHistory b
                      ((js "label",
                        JStr (js "Prevod v " ++ translateTo (state c)))
                       :: match shown with
                          | Some a => [(js "ads", a)]
                          | None => []
                          end)
                      {| state := set_ads shown (state c1);
                         stored := stored c1 |})
             end
       end
   end,
   [ToTranslate request]).

(** [ads] is a list and the translate button is enabled. *)
Definition canTranslate (st : State) : bool :=
  match ads st with
  | Some (JArr (_ :: _)) => nonempty (translateTo st) && negb (loading st)
  | _ => false
  end.

(** The route behind [fetch]: the body of the request arrives as it was
    sent, the status decides [res.ok], and [res.json()] gives back the
    body the route passed to [NextResponse.json], without the properties
    that are undefined. *)
Definition optional (k : JsString) (v : option Value)
    : list (JsString * Value) :=
  match v with Some x => [(k, x)] | None => [] end.

Definition adJson (a : AdItem) : Value :=
  JObj [ (js "title", JStr (title a));
         (js "description", JStr (description a));
         (js "cta", JStr (cta a)) ].

Definition generateJson (j : Generate.GenerateJson) : Value :=
  match j with
  | Generate.Ads src l =>
      JObj [ (js "source",
              JObj (optional (js "url")
                      (option_map JStr (Generate.source_url src))
                    ++ optional (js "h1")
                         (option_map JStr (Generate.source_h1 src))
                    ++ optional (js "meta")
                         (option_map JStr (Generate.source_meta src))
                    ++ [(js "variant", JBool (Generate.variant src))]));
             (js "ads", JArr (map adJson l)) ]
  | Generate.Failure e raw items =>
      JObj ([(js "error", JStr e)]
            ++ optional (js "raw") (option_map JStr raw)
            ++ optional (js "items")
                 (option_map (fun l => JArr (map adJson l)) items))
  end.

Definition translateJson (j : Translate.TranslateJson Num) : Value :=
  match j with
  | Translate.Ads l => JObj [(js "ads", JArr l)]
  | Translate.Failure e raw =>
      JObj ([(js "error", JStr e)]
            ++ optional (js "raw") (option_map JStr raw))
  end.

Definition is_ok (st : Z) : bool := ((200 <=? st) && (st <=? 299))%Z.

(** The browser of [b] whose [fetch] reaches the two routes in the world
    [w]. *)
Definition served (w : World) (b : Browser) : Browser :=
  {| fetch_generate :=
       fun request =>
         let r := fst (Generate.POST w request) in
         Returned {| ok := is_ok (status r);
                     json := Returned (generateJson (body r)) |};
     fetch_translate :=
       fun request =>
         let r := fst (Translate.POST w request) in
         Returned {| ok := is_ok (status r);
                     json := Returned (translateJson (body r)) |};
     URL_hostname := URL_hostname b;
     randomUUID := randomUUID b;
     Date_now := Date_now b;
     storage_blocked := storage_blocked b;
     storage_takes := storage_takes b |}.

End Client.

End Page.

(** ** Sessions of the page *)

Section Sessions.
Context `{JsRuntime}.

(** The handlers a user can trigger once the component is mounted. *)
Inductive Action :=
| Submit
| TranslateNow
| Clear
| Select (h : Value).

Definition step (b : Page.Browser) (a : Action) (c : Page.Client)
    : Page.Client :=
  match a with
  | Submit => fst (Page.onSubmit b c)
  | TranslateNow => fst (Page.onTranslate b c)
  | Clear => Page.clearHistory b c
  | Select h => Page.selectEntry h c
  end.

(** A session: the handlers run one after the other, each in the browser
    it meets and settled before the next is triggered. *)
Fixpoint run (l : list (Page.Browser * Action)) (c : Page.Client)
    : Page.Client :=
  match l with
  | [] => c
  | (b, a) :: r => run r (step b a c)
  end.

Definition history_of (c : Page.Client) : list Value :=
  Page.history (Page.state c).

(** The stored item is the text of the history shown. *)
Definition in_sync (c : Page.Client) : Prop :=
  Page.stored c = Some (JSON_stringify (JArr (history_of c)) 0).

Definition storage_works (b : Page.Browser) : Prop :=
  Page.storage_blocked b = false /\ forall t, Page.storage_takes b t = true.
End Sessions.

Section Outcomes.
Context `{JsRuntime}.

(** The entry onSubmit saves, and the one the translate button saves. *)
Definition submitEntry (b : Page.Browser) (st : Page.State) (host : JsString)
    (shown : Value) : Value :=
  JObj [ (js "id", JStr (Page.randomUUID b));
         (js "createdAt", JNum (Page.Date_now b));
         (js "url", JStr (Page.url st));
         (js "customPrompt", JStr (Page.customPrompt st));
         (js "label", JStr (Page.remove_first (js "www.") host));
         (js "ads", shown) ].

Definition translationEntry (b : Page.Browser) (st : Page.State)
    (shown : Value) : Value :=
  JObj [ (js "id", JStr (Page.randomUUID b));
         (js "createdAt", JNum (Page.Date_now b));
         (js "label", JStr (js "Prevod v " ++ Page.translateTo st));
         (js "ads", shown) ].

(** The state with its loading, error, ads, history and selection
    replaced. *)
Definition settled (st : Page.State) (e : option JsString) (a : option Value)
    (h : list Value) (sel : option Value) : Page.State :=
  {| Page.url := Page.url st; Page.loading := false; Page.error := e;
     Page.ads := a; Page.customPrompt := Page.customPrompt st;
     Page.language := Page.language st;
     Page.translateTo := Page.translateTo st;
     Page.history := h; Page.selectedHistoryId := sel |}.
End Outcomes.


(** ** Sample visits of the page *)

Module Visit.

#[local] Existing Instance Ref.runtime.

(** A browser with a working localStorage, before its [fetch] is tied to
    the routes. *)
Definition browser : Page.Browser (H := Ref.runtime) :=
  {| Page.fetch_generate :=
       fun _ => Thrown (ErrorObject (js "Failed to fetch"));
     Page.fetch_translate :=
       fun _ => Thrown (ErrorObject (js "Failed to fetch"));
     Page.URL_hostname :=
       fun u =>
         if str_eqb u (js "https://www.shop.example/boots")
         then Returned (js "www.shop.example")
         else Thrown (ErrorObject (js "Invalid URL"));
     Page.randomUUID := js "3b241101-e2bb-4255-8caf-4136c566a962";
     Page.Date_now := 1700000000000%Z;
     Page.storage_blocked := false;
     Page.storage_takes := fun _ => true |}.

(** The component as its [useState] calls create it. *)
Definition mounted : Page.State (H := Ref.runtime) :=
  {| Page.url := [];
     Page.loading := false;
     Page.error := None;
     Page.ads := Some (JArr []);
     Page.customPrompt := [];
     Page.language := js "Slovenian";
     Page.translateTo := [];
     Page.history := [];
     Page.selectedHistoryId := Some JNull |}.

(** The url field filled in, on a first visit. *)
Definition typed : Page.Client (H := Ref.runtime) :=
  {| Page.state :=
       {| Page.url := js "https://www.shop.example/boots";
          Page.loading := false;
          Page.error := None;
          Page.ads := Some (JArr []);
          Page.customPrompt := js "short";
          Page.language := js "Slovenian";
          Page.translateTo := [];
          Page.history := [];
          Page.selectedHistoryId := Some JNull |};
     Page.stored := None |}.

(** One ad on the page and German chosen as the language to translate
    into; the history was cleared before. *)
Definition showing : Page.Client (H := Ref.runtime) :=
  {| Page.state :=
       {| Page.url := js "https://www.shop.example/boots";
          Page.loading := false;
          Page.error := None;
          Page.ads := Some (JArr [Cases.adABC]);
          Page.customPrompt := [];
          Page.language := js "Slovenian";
          Page.translateTo := js "German";
          Page.history := [];
          Page.selectedHistoryId := Some JNull |};
     Page.stored := Some (js "[]") |}.

(** The completion API answers with three ads. *)
Definition answered : World := answering Sample.offline Sample.threeAds.

End Visit.
(** Beta and iota steps, and the projections of a response, without
    unfolding any text. *)
Ltac reduce :=
  cbv beta iota; cbn [fst snd status body NextResponse_json negb].

(** * Properties *)

(** ** Trimming *)

Lemma trimStart_clean (s : JsString) : clean_head (trimStart s).
Proof.
  induction s as [|c r IH]; simpl; [exact I|].
  destruct (is_white_space c) eqn:E; [exact IH | exact E].
Qed.

Lemma trimStart_fixed (s : JsString) : clean_head s -> trimStart s = s.
Proof.
  destruct s as [|c r]; simpl; [reflexivity|].
  intros ->; reflexivity.
Qed.

Lemma trimStart_idem (s : JsString) : trimStart (trimStart s) = trimStart s.
Proof. apply trimStart_fixed, trimStart_clean. Qed.

Lemma trimStart_snoc (l : JsString) (c : N) :
  is_white_space c = false -> trimStart (l ++ [c]) = trimStart l ++ [c].
Proof.
  intros Hc; induction l as [|x r IH]; simpl.
  - rewrite Hc; reflexivity.
  - destruct (is_white_space x); [exact IH | reflexivity].
Qed.

Lemma trimEnd_cons (c : N) (r : JsString) :
  is_white_space c = false -> trimEnd (c :: r) = c :: trimEnd r.
Proof.
  intros Hc; unfold trimEnd; simpl rev.
  rewrite trimStart_snoc by exact Hc.
  rewrite rev_app_distr; reflexivity.
Qed.

Lemma trimEnd_idem (s : JsString) : trimEnd (trimEnd s) = trimEnd s.
Proof.
  unfold trimEnd; rewrite rev_involutive, trimStart_idem; reflexivity.
Qed.

Lemma trimEnd_clean (s : JsString) : clean_head s -> clean_head (trimEnd s).
Proof.
  destruct s as [|c r]; [intros _; exact I|].
  simpl; intros Hc; rewrite trimEnd_cons by exact Hc; exact Hc.
Qed.

Lemma trim_idem (s : JsString) : trim (trim s) = trim s.
Proof.
  unfold trim.
  rewrite (trimStart_fixed (trimEnd (trimStart s))).
  - apply trimEnd_idem.
  - apply trimEnd_clean, trimStart_clean.
Qed.

Lemma nonempty_true (s : JsString) : nonempty s = true -> s <> [].
Proof. destruct s; [discriminate | discriminate]. Qed.

(** ** The generation route, step by step *)

Section GenerateFacts.
Context `{JsRuntime}.

Lemma respond_run (req : Generate.GenerateBody) (sc : Generate.ScrapeResult)
    (parsed : list Value) (w : World) (log : list Call) :
  Generate.respond req sc parsed w log =
  (match Generate.normalize parsed with
   | Thrown e => Thrown e
   | Returned l =>
       Returned (if (length l <? 3)%nat then too_few l else success req sc l)
   end, log).
Proof.
  unfold Generate.respond, bind, lift, ret.
  destruct (Generate.normalize parsed) as [l|e]; [|reflexivity].
  destruct (length l <? 3)%nat; reflexivity.
Qed.

Lemma upstream_run (req : Generate.GenerateBody) (sc : Generate.ScrapeResult)
    (w : World) (log : list Call) :
  (let (o, log') :=
     match chat_completions_create w (request_of req sc) with
     | Returned a =>
         match Generate.parseCompletion (or_empty (option_map trim a)) with
         | Some parsed => Generate.respond req sc parsed
         | None =>
             fun (_ : World) (log0 : list Call) =>
               (Returned (parse_failure (or_empty (option_map trim a))), log0)
         end w log
     | Thrown e => (Thrown e, log)
     end in
   match o with
   | Returned a => (a, log')
   | Thrown e => (crashed e, log')
   end) =
  match chat_completions_create w (request_of req sc) with
  | Returned completion =>
      (answer req sc (or_empty (option_map trim completion)), log)
  | Thrown e => (crashed e, log)
  end.
Proof.
  destruct (chat_completions_create w (request_of req sc)) as [a|e];
    [|reflexivity].
  unfold answer.
  destruct (Generate.parseCompletion (or_empty (option_map trim a)));
    [|reflexivity].
  rewrite respond_run.
  destruct (Generate.normalize l); reflexivity.
Qed.

Lemma generate_run (w : World) (req : Generate.GenerateBody) :
  Generate.POST w req =
  if negb (str_truthy (Generate.url req))
     && negb (present (Generate.variantOf req))
  then
    (NextResponse_json
       (Generate.Failure (js "Zahteva mora vsebovati 'url' ali 'variantOf'.")
          None None) 400, [])
  else
    match scraping w req with
    | (Thrown e, log) => (crashed e, log)
    | (Returned sc, log) =>
        if negb (str_truthy (env_OPENAI_API_KEY w)) then
          (NextResponse_json
             (Generate.Failure
                (js "Manjka okoljska spremenljivka OPENAI_API_KEY.")
                None None) 500, log)
        else
          let log' :=
            log ++ [ChatCompletionsCreate (or_empty (env_OPENAI_API_KEY w))
                      (request_of req sc)] in
          match chat_completions_create w (request_of req sc) with
          | Thrown e => (crashed e, log')
          | Returned completion =>
              (answer req sc (or_empty (option_map trim completion)), log')
          end
    end.
Proof.
  unfold Generate.POST, try_catch, Generate.handle, bind, ask, emit, lift, ret,
    scraping.
  destruct (negb (str_truthy (Generate.url req))
            && negb (present (Generate.variantOf req))); [reflexivity|].
  destruct (str_truthy (Generate.url req)).
  - destruct (Generate.scrapePage (or_empty (Generate.url req)) w [])
      as [[sc|e] log]; [|reflexivity].
    destruct (negb (str_truthy (env_OPENAI_API_KEY w))); [reflexivity|].
    apply (upstream_run req sc w).
  - destruct (negb (str_truthy (env_OPENAI_API_KEY w))); [reflexivity|].
    apply (upstream_run req {| Generate.h1 := None; Generate.meta := None |} w).
Qed.

Lemma scraping_log (w : World) (req : Generate.GenerateBody) :
  forall o log, scraping w req = (o, log) ->
  forall k r, ~ In (ChatCompletionsCreate k r) log.
Proof.
  unfold scraping, Generate.scrapePage, bind, emit, ask, lift, ret.
  intros o log Hs k r.
  destruct (str_truthy (Generate.url req)).
  - destruct (axios_get w (or_empty (Generate.url req)));
      injection Hs as <- <-; simpl; intros [Hc|[]]; discriminate.
  - injection Hs as <- <-; intros [].
Qed.

Lemma scraping_answering (w : World) (c : JsString)
    (req : Generate.GenerateBody) :
  scraping (answering w c) req = scraping w req.
Proof. reflexivity. Qed.

Lemma scraping_fetched (w : World) (req : Generate.GenerateBody) :
  (str_truthy (Generate.url req) = true ->
   exists html, axios_get w (or_empty (Generate.url req)) = Returned html) ->
  exists sc log, scraping w req = (Returned sc, log).
Proof.
  unfold scraping, Generate.scrapePage, bind, emit, ask, lift, ret.
  intros Hpage.
  destruct (str_truthy (Generate.url req)).
  - destruct (Hpage eq_refl) as [html ->]. eexists; eexists; reflexivity.
  - eexists; eexists; reflexivity.
Qed.

Lemma field_trimmed (v : option Value) :
  trim (Generate.field v) = Generate.field v.
Proof. unfold Generate.field; apply trim_idem. Qed.

Lemma normalizeItem_trimmed (item : Value) (a : AdItem) :
  Generate.normalizeItem item = Returned a -> trimmed_ad a.
Proof.
  unfold Generate.normalizeItem.
  destruct item; intros Hn; try discriminate; injection Hn as <-;
    repeat split; apply field_trimmed.
Qed.

Lemma mapItems_trimmed (l : list Value) :
  forall l', Generate.mapItems l = Returned l' ->
  (length l' = length l) /\ Forall trimmed_ad l'.
Proof.
  induction l as [|item r IH]; simpl; intros l' Hm.
  - injection Hm as <-; split; [reflexivity | constructor].
  - destruct (Generate.normalizeItem item) as [a|e] eqn:Ha; [|discriminate].
    destruct (Generate.mapItems r) as [l1|e] eqn:Hr; [|discriminate].
    injection Hm as <-.
    destruct (IH l1 eq_refl) as [Hlen Hall].
    split; [simpl; congruence|].
    constructor; [exact (normalizeItem_trimmed item a Ha) | exact Hall].
Qed.

Lemma complete_valid (a : AdItem) :
  trimmed_ad a -> Generate.complete a = true -> valid_ad a.
Proof.
  unfold Generate.complete, valid_ad, trimmed_nonempty.
  intros (Ht & Hd & Hc) Hcomp.
  apply andb_true_iff in Hcomp as [Hcomp Hc'].
  apply andb_true_iff in Hcomp as [Ht' Hd'].
  repeat split; auto using nonempty_true.
Qed.

Lemma normalize_valid (parsed : list Value) (l : list AdItem) :
  Generate.normalize parsed = Returned l ->
  (length l <= 3)%nat /\ Forall valid_ad l.
Proof.
  unfold Generate.normalize.
  destruct (Generate.mapItems (firstn 3 parsed)) as [l0|e] eqn:Hm;
    [|discriminate].
  intros [= <-].
  destruct (mapItems_trimmed _ _ Hm) as [Hlen Hall].
  split.
  - pose proof (filter_length_le Generate.complete l0) as Hle.
    pose proof (firstn_le_length 3 parsed) as Hf. lia.
  - rewrite Forall_forall in *. intros a Ha.
    apply filter_In in Ha as [Hin Hc].
    apply complete_valid; auto.
Qed.

(** C1.  Whenever the generation route answers with status 200, the body
    is the success body, its ads are exactly three, and the title,
    description and cta of each are trimmed and not empty. *)
Theorem generate_ok_three_valid_ads (w : World) (req : Generate.GenerateBody) :
  status (fst (Generate.POST w req)) = 200%Z ->
  exists source ads,
    body (fst (Generate.POST w req)) = Generate.Ads source ads
    /\ length ads = 3%nat /\ Forall valid_ad ads.
Proof.
  rewrite generate_run.
  destruct (negb (str_truthy (Generate.url req))
            && negb (present (Generate.variantOf req))); [discriminate|].
  destruct (scraping w req) as [[sc|e] log]; [|discriminate].
  destruct (negb (str_truthy (env_OPENAI_API_KEY w))); [discriminate|].
  cbv zeta.
  destruct (chat_completions_create w (request_of req sc)) as [c|e];
    [|discriminate].
  unfold answer.
  destruct (Generate.parseCompletion (or_empty (option_map trim c)))
    as [parsed|]; [|discriminate].
  destruct (Generate.normalize parsed) as [l|e] eqn:Hn; [|discriminate].
  destruct (length l <? 3)%nat eqn:Hlen; [discriminate|].
  intros _. simpl.
  destruct (normalize_valid parsed l Hn) as [Hle Hall].
  apply Nat.ltb_ge in Hlen.
  eexists; exists l; repeat split; [lia | exact Hall].
Qed.

End GenerateFacts.

Lemma generate_ok_three_valid_ads_witness :
  exists source ads,
    body (fst (Generate.POST (H := Ref.runtime)
                 (answering Sample.offline Sample.threeAds) Sample.byUrl))
    = Generate.Ads source ads
    /\ length ads = 3%nat /\ Forall valid_ad ads.
Proof.
  apply generate_ok_three_valid_ads. vm_compute. reflexivity.
Defined.

(** ** The translation route, step by step *)

Section TranslateFacts.
Context `{JsRuntime}.

Lemma translate_upstream_run (items : list Value) (t : Value) (w : World) :
  (let (o, log) :=
     match chat_completions_create w
             (Translate.completionRequest (JArr items) t) with
     | Returned a =>
         match Translate.parseAds (or_empty (option_map trim a)) with
         | [] =>
             fun (_ : World) (log : list Call) =>
               (Returned (invalid_json (or_empty (option_map trim a))), log)
         | v :: r =>
             fun (_ : World) (log : list Call) =>
               (Returned (NextResponse_json (Translate.Ads (v :: r)) 200), log)
         end w
           ([] ++ [ChatCompletionsCreate (or_empty (env_OPENAI_API_KEY w))
                     (Translate.completionRequest (JArr items) t)])
     | Thrown e =>
         (Thrown e,
          [] ++ [ChatCompletionsCreate (or_empty (env_OPENAI_API_KEY w))
                   (Translate.completionRequest (JArr items) t)])
     end in
   match o with
   | Returned a => (a, log)
   | Thrown e =>
       (NextResponse_json
          (Translate.Failure (error_message_else e (js "Neznana napaka")) None)
          500, log)
   end) =
  (match chat_completions_create w
           (Translate.completionRequest (JArr items) t) with
   | Returned a => translated (or_empty (option_map trim a))
   | Thrown e =>
       NextResponse_json
         (Translate.Failure (error_message_else e (js "Neznana napaka")) None)
         500
   end,
   [ChatCompletionsCreate (or_empty (env_OPENAI_API_KEY w))
      (Translate.completionRequest (JArr items) t)]).
Proof.
  destruct (chat_completions_create w
              (Translate.completionRequest (JArr items) t)) as [a|e];
    [|reflexivity].
  unfold translated.
  destruct (Translate.parseAds (or_empty (option_map trim a))); reflexivity.
Qed.

Lemma translate_reached (w : World) (body : Value) :
  translation_reaches_upstream w body ->
  exists request,
    Translate.POST w body =
    (match chat_completions_create w request with
     | Returned a => translated (or_empty (option_map trim a))
     | Thrown e =>
         NextResponse_json
           (Translate.Failure (error_message_else e (js "Neznana napaka"))
              None) 500
     end,
     [ChatCompletionsCreate (or_empty (env_OPENAI_API_KEY w)) request]).
Proof.
  intros [(items & t & Hads & Ht & Htruthy) Hkey].
  exists (Translate.completionRequest (JArr items) t).
  unfold Translate.POST, try_catch, Translate.handle, bind, ask, emit, lift,
    ret, throw.
  destruct body; try discriminate Hads.
  rewrite Hads, Ht. cbv beta iota.
  rewrite Htruthy. cbn [negb]. cbv beta iota.
  rewrite Hkey. cbn [negb]. cbv beta iota.
  apply translate_upstream_run.
Qed.

Lemma translate_ok_inv (w : World) (body : Value) :
  status (fst (Translate.POST w body)) = 200%Z ->
  exists request completion,
    translation_reaches_upstream w body
    /\ chat_completions_create w request = Returned completion
    /\ fst (Translate.POST w body)
       = translated (or_empty (option_map trim completion))
    /\ Translate.parseAds (or_empty (option_map trim completion)) <> [].
Proof.
  unfold Translate.POST, try_catch, Translate.handle, bind, ask, emit, lift,
    ret, throw, translation_reaches_upstream, Translate.badRequest.
  destruct body as [| | | | |props]; reduce; try discriminate.
  destruct (prop (JObj props) (js "ads")) as [[| | | |items|]|] eqn:Hads;
    reduce; try discriminate;
    destruct (prop (JObj props) (js "targetLanguage")) as [t|] eqn:Ht;
    reduce; try discriminate.
  destruct (truthy t) eqn:Htruthy; reduce; [|discriminate].
  destruct (str_truthy (env_OPENAI_API_KEY w)) eqn:Hkey; reduce;
    [|discriminate].
  rewrite translate_upstream_run.
  destruct (chat_completions_create w
              (Translate.completionRequest (JArr items) t)) as [a|e] eqn:Hc;
    reduce; [|discriminate].
  intros Hst.
  exists (Translate.completionRequest (JArr items) t), a.
  repeat split; eauto.
  unfold translated, invalid_json in Hst.
  destruct (Translate.parseAds (or_empty (option_map trim a)));
    [discriminate Hst | discriminate].
Qed.

End TranslateFacts.

(** ** From the completion text to the answer *)

Section Completions.
Context `{JsRuntime}.

Lemma generate_reached (w : World) (req : Generate.GenerateBody)
    (c : JsString) :
  generation_reaches_upstream w req ->
  exists sc log,
    Generate.POST (answering w c) req =
    (answer req sc (trim c),
     log ++ [ChatCompletionsCreate (or_empty (env_OPENAI_API_KEY w))
               (request_of req sc)]).
Proof.
  intros (Hreq & Hpage & Hkey).
  rewrite generate_run, scraping_answering.
  assert (Hvalid : negb (str_truthy (Generate.url req))
                   && negb (present (Generate.variantOf req)) = false).
  { destruct Hreq as [-> | ->]; [reflexivity | apply andb_false_r]. }
  rewrite Hvalid.
  destruct (scraping_fetched w req Hpage) as (sc & log & ->).
  cbn [env_OPENAI_API_KEY chat_completions_create answering].
  rewrite Hkey. cbn [negb option_map or_empty].
  exists sc, log. reflexivity.
Qed.

Lemma generate_same_parse (w : World) (req : Generate.GenerateBody)
    (c c' : JsString) (parsed : list Value) :
  Generate.parseCompletion (trim c) = Some parsed ->
  Generate.parseCompletion (trim c') = Some parsed ->
  Generate.POST (answering w c) req = Generate.POST (answering w c') req.
Proof.
  intros Hc Hc'.
  rewrite !generate_run, !scraping_answering.
  destruct (negb (str_truthy (Generate.url req))
            && negb (present (Generate.variantOf req))); [reflexivity|].
  destruct (scraping w req) as [[sc|e] log]; [|reflexivity].
  cbn [env_OPENAI_API_KEY chat_completions_create answering].
  destruct (negb (str_truthy (env_OPENAI_API_KEY w))); [reflexivity|].
  cbn [option_map or_empty]. unfold answer. rewrite Hc, Hc'. reflexivity.
Qed.

Lemma parse_array (content : JsString) (items : list Value) :
  JSON_parse content = Some (JArr items) ->
  Generate.parseCompletion content = Some items.
Proof.
  intros Hp. unfold Generate.parseCompletion, Generate.parseStrict.
  rewrite Hp. reflexivity.
Qed.

Lemma parse_ads_property (content : JsString) (v : Value)
    (items : list Value) :
  JSON_parse content = Some v -> isArray v = false -> truthy v = true ->
  prop v (js "ads") = Some (JArr items) ->
  Generate.parseCompletion content = Some items.
Proof.
  intros Hp Harr Ht Hads. unfold Generate.parseCompletion, Generate.parseStrict.
  rewrite Hp, Ht, Hads. destruct v; try reflexivity. discriminate Harr.
Qed.

Lemma parseStrict_fails (content : JsString) :
  strict_tier_fails content -> Generate.parseStrict content = None.
Proof.
  unfold Generate.parseStrict.
  intros [-> | (v & -> & Harr & Hrest)]; [reflexivity|].
  destruct v; try discriminate Harr;
    (destruct Hrest as [-> | Hno]; [reflexivity|]);
    match goal with
    | |- context [truthy ?x] => destruct (truthy x); [|reflexivity]
    end;
    match goal with
    | |- context [prop ?x ?k] =>
        destruct (prop x k) as [[]|]; try reflexivity;
        exfalso; exact (Hno _ eq_refl)
    end.
Qed.

Lemma parseAds_of_array (content : JsString) (items : list Value) :
  JSON_parse content = Some (JArr items) -> Translate.parseAds content = [].
Proof. intros Hp. unfold Translate.parseAds. rewrite Hp. reflexivity. Qed.

Lemma translate_answered (w : World) (body : Value) (c : JsString) :
  translation_reaches_upstream w body ->
  fst (Translate.POST (answering w c) body) = translated (trim c).
Proof.
  intros Hr.
  destruct (translate_reached (answering w c) body) as (request & ->).
  - exact Hr.
  - reflexivity.
Qed.

End Completions.

(** ** C2: what the translation route returns *)

(** C2, as it holds.  Whenever the translation route answers with status
    200, its ads are the elements of the ads array of the parsed completion
    text (the trimmed text the API returned), handed on as they were parsed,
    and there is at least one of them. *)
Theorem translate_ok_hands_on_parsed_ads `{JsRuntime} (w : World)
    (payload : Value) :
  status (fst (Translate.POST w payload)) = 200%Z ->
  exists request completion parsed x rest,
    chat_completions_create w request = Returned completion
    /\ JSON_parse (or_empty (option_map trim completion)) = Some parsed
    /\ prop parsed (js "ads") = Some (JArr (x :: rest))
    /\ body (fst (Translate.POST w payload)) = Translate.Ads (x :: rest).
Proof.
  intros Hst.
  destruct (translate_ok_inv w payload Hst)
    as (request & completion & _ & Hc & -> & Hne).
  exists request, completion.
  unfold translated, Translate.parseAds in *.
  destruct (JSON_parse (or_empty (option_map trim completion)))
    as [parsed|]; [|contradiction].
  destruct (prop parsed (js "ads")) as [[| | | |[|x rest]|]|] eqn:Hads;
    try contradiction.
  exists parsed, x, rest. repeat split; auto.
Qed.

Lemma translate_ok_hands_on_parsed_ads_witness :
  exists request completion parsed x rest,
    chat_completions_create (answering Sample.offline Sample.twoAds) request
    = Returned completion
    /\ JSON_parse (JsRuntime := Ref.runtime)
         (or_empty (option_map trim completion)) = Some parsed
    /\ prop (H := Ref.runtime) parsed (js "ads") = Some (JArr (x :: rest))
    /\ body (fst (Translate.POST (H := Ref.runtime)
                    (answering Sample.offline Sample.twoAds) Sample.toGerman))
       = Translate.Ads (x :: rest).
Proof.
  apply (translate_ok_hands_on_parsed_ads (H := Ref.runtime)).
  vm_compute. reflexivity.
Defined.

(** C2, counterexample.  The completion text is an ads array whose only
    item has a title with a space on either side and neither description
    nor cta: the translation route answers 200 and returns that item as it
    is. *)
Lemma translate_hands_on_untrimmed_item :
  status (fst (Translate.POST (H := Ref.runtime)
                 (answering Sample.offline Sample.untrimmed) Sample.toGerman))
  = 200%Z
  /\ body (fst (Translate.POST (H := Ref.runtime)
                  (answering Sample.offline Sample.untrimmed) Sample.toGerman))
     = Translate.Ads [JObj [(js "title", JStr (js " A "))]]
  /\ ~ normalized_item (H := Ref.runtime)
         (JObj [(js "title", JStr (js " A "))]).
Proof.
  split; [vm_compute; reflexivity|].
  split; [vm_compute; reflexivity|].
  intros [(s & Hs & Htrim & _) _].
  vm_compute in Hs. injection Hs as <-.
  vm_compute in Htrim. discriminate Htrim.
Qed.

(** ** C3: the bare array *)

(** C3, as it holds.  When the completion text parses as a bare array, it
    is the generation route that treats it exactly as the same array under
    the key ads of an object: both texts give the same response and the
    same outbound calls.  The translation route reads only the ads property
    and answers the bare array with 502 and the trimmed text as raw. *)
Theorem bare_array_taken_by_generate_not_translate `{JsRuntime} (w : World)
    (req : Generate.GenerateBody) (payload : Value) (c c' : JsString)
    (items : list Value) (props : list (JsString * Value)) :
  JSON_parse (trim c) = Some (JArr items) ->
  JSON_parse (trim c') = Some (JObj props) ->
  assoc (js "ads") props = Some (JArr items) ->
  translation_reaches_upstream w payload ->
  Generate.POST (answering w c) req = Generate.POST (answering w c') req
  /\ fst (Translate.POST (answering w c) payload)
     = NextResponse_json
         (Translate.Failure (js "Neveljaven JSON iz OpenAI.") (Some (trim c)))
         502.
Proof.
  intros Hc Hc' Hads Hr.
  pose proof (parseAds_of_array _ _ Hc) as Hnone.
  split.
  - apply generate_same_parse with (parsed := items).
    + apply parse_array; exact Hc.
    + apply parse_ads_property with (v := JObj props); auto.
  - rewrite translate_answered by exact Hr.
    unfold translated. rewrite Hnone. reflexivity.
Qed.

Lemma bare_array_taken_by_generate_not_translate_witness :
  Generate.POST (H := Ref.runtime)
    (answering Sample.offline Sample.bareArray) Sample.byUrl
  = Generate.POST (H := Ref.runtime)
      (answering Sample.offline Sample.wrappedArray) Sample.byUrl
  /\ fst (Translate.POST (H := Ref.runtime)
            (answering Sample.offline Sample.bareArray) Sample.toGerman)
     = NextResponse_json
         (Translate.Failure (js "Neveljaven JSON iz OpenAI.")
            (Some (trim Sample.bareArray))) 502.
Proof.
  apply (bare_array_taken_by_generate_not_translate (H := Ref.runtime)
           Sample.offline Sample.byUrl Sample.toGerman
           Sample.bareArray Sample.wrappedArray
           [JObj [(js "title", JStr (js "A"));
                  (js "description", JStr (js "B"));
                  (js "cta", JStr (js "C"))]]
           [(js "ads",
             JArr [JObj [(js "title", JStr (js "A"));
                         (js "description", JStr (js "B"));
                         (js "cta", JStr (js "C"))]])]);
    try (vm_compute; reflexivity).
  split; [|reflexivity].
  eexists; eexists. repeat split; vm_compute; reflexivity.
Defined.

(** C3, counterexample.  The same single ad, once as a bare array and once
    under the key ads: the translation route answers the first with 502 and
    the second with 200. *)
Lemma translate_rejects_bare_array :
  JSON_parse (JsRuntime := Ref.runtime) Sample.bareArray
  = Some (JArr [JObj [(js "title", JStr (js "A"));
                      (js "description", JStr (js "B"));
                      (js "cta", JStr (js "C"))]])
  /\ fst (Translate.POST (H := Ref.runtime)
            (answering Sample.offline Sample.bareArray) Sample.toGerman)
     = NextResponse_json
         (Translate.Failure (js "Neveljaven JSON iz OpenAI.")
            (Some Sample.bareArray)) 502
  /\ fst (Translate.POST (H := Ref.runtime)
            (answering Sample.offline Sample.wrappedArray) Sample.toGerman)
     = NextResponse_json
         (Translate.Ads [JObj [(js "title", JStr (js "A"));
                               (js "description", JStr (js "B"));
                               (js "cta", JStr (js "C"))]]) 200.
Proof.
  repeat split; vm_compute; reflexivity.
Qed.

(** ** C4: two valid items *)

(** C4.  When the generation request reaches the completion API and the
    Normalizer keeps exactly two items of the completion text, the route
    answers 502 with exactly those two as items; when the translation
    request reaches the API and the completion text yields two items, the
    route answers 200 with them. *)
Theorem two_items_fail_generation_pass_translation `{JsRuntime} (w : World)
    (req : Generate.GenerateBody) (payload : Value) (c c' : JsString)
    (parsed : list Value) (kept : list AdItem) (x y : Value) :
  generation_reaches_upstream w req ->
  Generate.parseCompletion (trim c) = Some parsed ->
  Generate.normalize parsed = Returned kept ->
  length kept = 2%nat ->
  translation_reaches_upstream w payload ->
  Translate.parseAds (trim c') = [x; y] ->
  fst (Generate.POST (answering w c) req)
  = NextResponse_json
      (Generate.Failure (js "Prejetih je premalo oglasov.") None (Some kept))
      502
  /\ fst (Translate.POST (answering w c') payload)
     = NextResponse_json (Translate.Ads [x; y]) 200.
Proof.
  intros Hg Hp Hn Hlen Ht Hads. split.
  - destruct (generate_reached w req c Hg) as (sc & log & ->).
    cbn [fst]. unfold answer. rewrite Hp, Hn, Hlen. reflexivity.
  - rewrite translate_answered by exact Ht.
    unfold translated. rewrite Hads. reflexivity.
Qed.

Lemma two_items_fail_generation_pass_translation_witness :
  fst (Generate.POST (H := Ref.runtime)
         (answering Sample.offline Sample.twoValid) Sample.byUrl)
  = NextResponse_json
      (Generate.Failure (js "Prejetih je premalo oglasov.") None
         (Some [ {| title := js "A"; description := js "B"; cta := js "C" |};
                 {| title := js "D"; description := js "E"; cta := js "F" |} ]))
      502
  /\ fst (Translate.POST (H := Ref.runtime)
            (answering Sample.offline Sample.twoAds) Sample.toGerman)
     = NextResponse_json
         (Translate.Ads
            [ JObj [(js "title", JStr (js "A"));
                    (js "description", JStr (js "B"));
                    (js "cta", JStr (js "C"))];
              JObj [(js "title", JStr (js "D"));
                    (js "description", JStr (js "E"));
                    (js "cta", JStr (js "F"))] ]) 200.
Proof.
  apply (two_items_fail_generation_pass_translation (H := Ref.runtime)
           Sample.offline Sample.byUrl Sample.toGerman
           Sample.twoValid Sample.twoAds
           [ JObj [(js "title", JStr (js "A"));
                   (js "description", JStr (js "B"));
                   (js "cta", JStr (js "C"))];
             JObj [(js "title", JStr (js "D"));
                   (js "description", JStr (js "E"));
                   (js "cta", JStr (js "F"))];
             JObj [(js "title", JStr (js "G"));
                   (js "description", JStr (js "H"))] ]).
  - split; [left; reflexivity|].
    split; [intros _; eexists; reflexivity | reflexivity].
  - vm_compute; reflexivity.
  - vm_compute; reflexivity.
  - reflexivity.
  - split; [|reflexivity].
    eexists; eexists. repeat split; vm_compute; reflexivity.
  - vm_compute; reflexivity.
Defined.

(** ** C5: the tiers of the generation parser *)

Lemma parseBracketed_found `{JsRuntime} (content : JsString) (x : Value)
    (rest : list Value) :
  indexOf content 91%N <> (-1)%Z -> lastIndexOf content 93%N <> (-1)%Z ->
  (lastIndexOf content 93%N > indexOf content 91%N)%Z ->
  JSON_parse (bracketed content) = Some (JArr (x :: rest)) ->
  Generate.parseBracketed content = x :: rest.
Proof.
  intros Hs He Hlt Hp. unfold Generate.parseBracketed.
  fold (bracketed content).
  apply Z.eqb_neq in Hs, He. apply Z.gt_lt, Z.gtb_lt in Hlt.
  rewrite Hs, He, Hlt, Hp. reflexivity.
Qed.

Lemma parseBracketed_nothing `{JsRuntime} (content : JsString) :
  indexOf content 91%N = (-1)%Z \/ lastIndexOf content 93%N = (-1)%Z
  \/ (lastIndexOf content 93%N <= indexOf content 91%N)%Z
  \/ JSON_parse (bracketed content) = None
  \/ (exists v, JSON_parse (bracketed content) = Some v /\ isArray v = false)
  \/ JSON_parse (bracketed content) = Some (JArr []) ->
  Generate.parseBracketed content = [].
Proof.
  unfold Generate.parseBracketed. fold (bracketed content).
  intros [Hs | [He | [Hle | Hp]]].
  - rewrite Hs. reflexivity.
  - rewrite He, andb_false_r. reflexivity.
  - assert ((lastIndexOf content 93 >? indexOf content 91)%Z = false) as ->.
    { rewrite Z.gtb_ltb. apply Z.ltb_ge. exact Hle. }
    rewrite andb_false_r. reflexivity.
  - destruct (negb _ && negb _ && _); [|reflexivity].
    destruct Hp as [-> | [(v & -> & Hv) | ->]]; try reflexivity.
    destruct v; try reflexivity. discriminate Hv.
Qed.

(** C5, as it holds.  The generation parser takes a parsed array as the
    ad list, also when it is empty; else the ads array of a truthy parsed
    value; when that first tier fails, the array parsed from the text
    between the first opening and the last closing bracket, if it is not
    empty.  It signals the parse failure (502 with raw) only when the first
    tier fails and the fallback gives nothing or an empty array; an empty
    array from the first tier goes on to normalization and the route
    answers the too-few-ads 502 with no items. *)
Theorem generation_parse_tiers `{JsRuntime} (content : JsString) :
  (forall items,
      JSON_parse content = Some (JArr items) ->
      Generate.parseCompletion content = Some items)
  /\ (forall v items,
         JSON_parse content = Some v -> isArray v = false ->
         truthy v = true -> prop v (js "ads") = Some (JArr items) ->
         Generate.parseCompletion content = Some items)
  /\ (strict_tier_fails content ->
      (forall x rest,
          indexOf content 91%N <> (-1)%Z ->
          lastIndexOf content 93%N <> (-1)%Z ->
          (lastIndexOf content 93%N > indexOf content 91%N)%Z ->
          JSON_parse (bracketed content) = Some (JArr (x :: rest)) ->
          Generate.parseCompletion content = Some (x :: rest))
      /\ (indexOf content 91%N = (-1)%Z
          \/ lastIndexOf content 93%N = (-1)%Z
          \/ (lastIndexOf content 93%N <= indexOf content 91%N)%Z
          \/ JSON_parse (bracketed content) = None
          \/ (exists v,
                 JSON_parse (bracketed content) = Some v /\ isArray v = false)
          \/ JSON_parse (bracketed content) = Some (JArr []) ->
          Generate.parseCompletion content = None))
  /\ (forall w req c,
         content = trim c -> generation_reaches_upstream w req ->
         (Generate.parseCompletion content = None ->
          fst (Generate.POST (answering w c) req)
          = NextResponse_json
              (Generate.Failure (js "Neveljaven JSON iz OpenAI.")
                 (Some content) None) 502)
         /\ (JSON_parse content = Some (JArr []) ->
             fst (Generate.POST (answering w c) req)
             = NextResponse_json
                 (Generate.Failure (js "Prejetih je premalo oglasov.") None
                    (Some [])) 502)).
Proof.
  split; [|split; [|split]].
  - apply parse_array.
  - apply parse_ads_property.
  - intros Hf. apply parseStrict_fails in Hf.
    unfold Generate.parseCompletion. rewrite Hf. split.
    + intros x rest Hs He Hlt Hp.
      rewrite (parseBracketed_found content x rest Hs He Hlt Hp). reflexivity.
    + intros Hn. rewrite (parseBracketed_nothing content Hn). reflexivity.
  - intros w req c -> Hg.
    destruct (generate_reached w req c Hg) as (sc & log & ->).
    cbn [fst]. unfold answer. split.
    + intros ->. reflexivity.
    + intros Hp. rewrite (parse_array _ _ Hp). reflexivity.
Qed.

(** C5, counterexample.  The completion text is the empty array: the
    parser yields zero items, and the route answers with the too-few-ads
    body and no raw text, not with the parse failure. *)
Lemma empty_array_is_not_a_parse_failure :
  Generate.parseCompletion (H := Ref.runtime) (js "[]") = Some []
  /\ fst (Generate.POST (H := Ref.runtime)
            (answering Sample.offline (js "[]")) Sample.byUrl)
     = NextResponse_json
         (Generate.Failure (js "Prejetih je premalo oglasov.") None (Some []))
         502.
Proof.
  split; vm_compute; reflexivity.
Qed.

(** ** C6: the raw text of a parse failure *)

(** C6, as it holds.  When the completion text, once trimmed, fails every
    parsing attempt of a route that reached the API, the route answers 502
    and raw is the trimmed text. *)
Theorem unparsable_completion_comes_back_trimmed `{JsRuntime} (w : World)
    (req : Generate.GenerateBody) (payload : Value) (c : JsString) :
  generation_reaches_upstream w req ->
  translation_reaches_upstream w payload ->
  Generate.parseCompletion (trim c) = None ->
  Translate.parseAds (trim c) = [] ->
  fst (Generate.POST (answering w c) req)
  = NextResponse_json
      (Generate.Failure (js "Neveljaven JSON iz OpenAI.") (Some (trim c)) None)
      502
  /\ fst (Translate.POST (answering w c) payload)
     = NextResponse_json
         (Translate.Failure (js "Neveljaven JSON iz OpenAI.") (Some (trim c)))
         502.
Proof.
  intros Hg Ht Hp Hads. split.
  - destruct (generate_reached w req c Hg) as (sc & log & ->).
    cbn [fst]. unfold answer. rewrite Hp. reflexivity.
  - rewrite translate_answered by exact Ht.
    unfold translated. rewrite Hads. reflexivity.
Qed.

Lemma unparsable_completion_comes_back_trimmed_witness :
  fst (Generate.POST (H := Ref.runtime)
         (answering Sample.offline Sample.truncated) Sample.byUrl)
  = NextResponse_json
      (Generate.Failure (js "Neveljaven JSON iz OpenAI.")
         (Some (trim Sample.truncated)) None) 502
  /\ fst (Translate.POST (H := Ref.runtime)
            (answering Sample.offline Sample.truncated) Sample.toGerman)
     = NextResponse_json
         (Translate.Failure (js "Neveljaven JSON iz OpenAI.")
            (Some (trim Sample.truncated))) 502.
Proof.
  apply (unparsable_completion_comes_back_trimmed (H := Ref.runtime)).
  - split; [left; reflexivity|].
    split; [intros _; eexists; reflexivity | reflexivity].
  - split; [|reflexivity].
    eexists; eexists. repeat split; vm_compute; reflexivity.
  - vm_compute; reflexivity.
  - vm_compute; reflexivity.
Defined.

(** C6, counterexample.  The completion text ends with a line feed: both
    routes answer 502 with raw equal to the text without the line feed,
    which is not the original text. *)
Lemma raw_is_the_trimmed_text :
  fst (Generate.POST (H := Ref.runtime)
         (answering Sample.offline (js "oops" ++ nl)) Sample.byUrl)
  = NextResponse_json
      (Generate.Failure (js "Neveljaven JSON iz OpenAI.") (Some (js "oops"))
         None) 502
  /\ fst (Translate.POST (H := Ref.runtime)
            (answering Sample.offline (js "oops" ++ nl)) Sample.toGerman)
     = NextResponse_json
         (Translate.Failure (js "Neveljaven JSON iz OpenAI.")
            (Some (js "oops"))) 502
  /\ js "oops" <> js "oops" ++ nl.
Proof.
  split; [vm_compute; reflexivity|].
  split; [vm_compute; reflexivity|].
  vm_compute. discriminate.
Qed.

(** ** C7: how many ads the translation route returns *)

(** C7, as it holds.  Whenever the translation route answers with status
    200, the response has at least one ad; the count is not bounded by the
    number of ads in the request. *)
Theorem translate_ok_at_least_one_ad `{JsRuntime} (w : World)
    (payload : Value) :
  status (fst (Translate.POST w payload)) = 200%Z ->
  exists ads,
    body (fst (Translate.POST w payload)) = Translate.Ads ads
    /\ (1 <= length ads)%nat.
Proof.
  intros Hst.
  destruct (translate_ok_inv w payload Hst)
    as (request & completion & _ & _ & -> & Hne).
  unfold translated.
  destruct (Translate.parseAds (or_empty (option_map trim completion)))
    as [|x rest]; [contradiction|].
  exists (x :: rest). split; [reflexivity | simpl; lia].
Qed.

Lemma translate_ok_at_least_one_ad_witness :
  exists ads,
    body (fst (Translate.POST (H := Ref.runtime)
                 (answering Sample.offline Sample.twoAds) Sample.toGerman))
    = Translate.Ads ads
    /\ (1 <= length ads)%nat.
Proof.
  apply (translate_ok_at_least_one_ad (H := Ref.runtime)).
  vm_compute. reflexivity.
Defined.

(** C7, counterexample.  One ad is sent for translation, the completion
    text carries two: the route answers 200 with two ads. *)
Lemma translate_returns_more_than_requested :
  prop (H := Ref.runtime) Sample.toGerman (js "ads")
  = Some (JArr [JObj [(js "title", JStr (js "A"));
                      (js "description", JStr (js "B"));
                      (js "cta", JStr (js "C"))]])
  /\ status (fst (Translate.POST (H := Ref.runtime)
                    (answering Sample.offline Sample.twoAds) Sample.toGerman))
     = 200%Z
  /\ exists ads,
      body (fst (Translate.POST (H := Ref.runtime)
                   (answering Sample.offline Sample.twoAds) Sample.toGerman))
      = Translate.Ads ads
      /\ length ads = 2%nat.
Proof.
  split; [vm_compute; reflexivity|].
  split; [vm_compute; reflexivity|].
  eexists. split; vm_compute; reflexivity.
Qed.

(** ** C8: the branches of buildPrompt *)

(** C8.  With a base ad, buildPrompt gives the variation prompt, whatever
    the custom instruction (and the page context) is; without one and with
    a custom instruction that is not empty once trimmed, the instruction
    verbatim, then the request for three variations and the shared
    guidelines; otherwise the generic copywriter prompt with the shared
    guidelines. *)
Theorem buildPrompt_priority (productUrl : JsString)
    (h1 meta : option JsString) (lang : JsString) :
  (forall v cp productUrl' h1' meta' cp',
      Generate.buildPrompt productUrl h1 meta cp (Some v) lang
      = Generate.buildPrompt productUrl' h1' meta' cp' (Some v) lang
      /\ exists rest,
          Generate.buildPrompt productUrl h1 meta cp (Some v) lang
          = js "You are a performance Facebook ads copywriter." ++ nl
            ++ js "Generate EXACTLY 3 similar VARIATIONS to the given base ad, keeping the same CTA. Language: "
            ++ lang ++ js "." ++ nl ++ nl ++ js "Base ad:" ++ nl
            ++ (title v ++ nl ++ nl ++ description v ++ nl ++ nl
                ++ js "CTA: " ++ cta v)
            ++ rest)
  /\ (forall cp,
         nonempty (trim cp) = true ->
         Generate.buildPrompt productUrl h1 meta (Some cp) None lang
         = cp ++ nl ++ nl
           ++ js "Generate EXACTLY 3 distinct Facebook ad variations in "
           ++ lang ++ js ". Output strictly JSON." ++ nl
           ++ Generate.sharedGuidelines productUrl h1 meta lang)
  /\ (forall cp,
         cp = None \/ (exists s, cp = Some s /\ nonempty (trim s) = false) ->
         Generate.buildPrompt productUrl h1 meta cp None lang
         = js "You are a performance Facebook ads copywriter." ++ nl
           ++ js "Generate EXACTLY 3 distinct Facebook ad variations." ++ nl
           ++ js " Language: " ++ lang
           ++ js ". Be persuasive, concise, and compliant. Output JSON only."
           ++ nl ++ nl
           ++ Generate.sharedGuidelines productUrl h1 meta lang).
Proof.
  split; [|split].
  - intros [vt vd vc] cp productUrl' h1' meta' cp'.
    unfold Generate.buildPrompt. cbv beta iota zeta. cbn [title description cta].
    split; [reflexivity|]. eexists. reflexivity.
  - intros cp Hcp. unfold Generate.buildPrompt. rewrite Hcp. reflexivity.
  - intros cp [-> | (s & -> & Hs)]; unfold Generate.buildPrompt.
    + reflexivity.
    + rewrite Hs. reflexivity.
Qed.

(** ** C9: neither url nor variantOf *)

(** C9.  A generation request with neither url nor variantOf is answered
    with status 400 and an error message, and the log of outbound calls is
    empty: no page was fetched and the completion API was not called. *)
Theorem generate_without_url_or_variant `{JsRuntime} (w : World)
    (req : Generate.GenerateBody) :
  Generate.url req = None -> Generate.variantOf req = None ->
  Generate.POST w req
  = (NextResponse_json
       (Generate.Failure (js "Zahteva mora vsebovati 'url' ali 'variantOf'.")
          None None) 400,
     []).
Proof.
  intros Hu Hv. rewrite generate_run, Hu, Hv. reflexivity.
Qed.

Lemma generate_without_url_or_variant_witness :
  Generate.POST (H := Ref.runtime) Sample.offline Sample.empty
  = (NextResponse_json
       (Generate.Failure (js "Zahteva mora vsebovati 'url' ali 'variantOf'.")
          None None) 400,
     []).
Proof.
  apply (generate_without_url_or_variant (H := Ref.runtime)); reflexivity.
Defined.

(** ** C10: the default language *)

(** C10.  When the language of a generation request is absent or empty,
    every call to the completion API carries the system message written
    for Slovenian and, as user message, the prompt built for Slovenian. *)
Theorem default_language_is_slovenian `{JsRuntime} (w : World)
    (req : Generate.GenerateBody) (k : JsString) (r : CompletionRequest) :
  Generate.language req = None \/ Generate.language req = Some [] ->
  In (ChatCompletionsCreate k r) (snd (Generate.POST w req)) ->
  exists sc,
    messages r =
    [ {| role := js "system";
         content :=
           js "You output strictly the requested JSON and nothing else. Respond ONLY in "
           ++ js "Slovenian" ++ js ". Do not use any other language." |};
      {| role := js "user";
         content :=
           Generate.buildPrompt (or_empty (Generate.url req)) (Generate.h1 sc)
             (Generate.meta sc) (Generate.customPrompt req)
             (Generate.variantOf req) (js "Slovenian") |} ].
Proof.
  intros Hlang. rewrite generate_run.
  destruct (negb (str_truthy (Generate.url req))
            && negb (present (Generate.variantOf req))); [intros []|].
  destruct (scraping w req) as [[sc|e] log] eqn:Hs.
  2:{ cbn [snd]. intros Hin. exfalso. exact (scraping_log w req _ _ Hs k r Hin). }
  assert (Hreq : In (ChatCompletionsCreate k r)
                   (log ++ [ChatCompletionsCreate
                              (or_empty (env_OPENAI_API_KEY w))
                              (request_of req sc)]) ->
                 r = request_of req sc).
  { intros Hin. apply in_app_or in Hin as [Hin|[Hin|[]]].
    - exfalso. exact (scraping_log w req _ _ Hs k r Hin).
    - injection Hin as _ <-. reflexivity. }
  assert (Hmsg : messages (request_of req sc) = 
    [ {| role := js "system";
         content :=
           js "You output strictly the requested JSON and nothing else. Respond ONLY in "
           ++ js "Slovenian" ++ js ". Do not use any other language." |};
      {| role := js "user";
         content :=
           Generate.buildPrompt (or_empty (Generate.url req)) (Generate.h1 sc)
             (Generate.meta sc) (Generate.customPrompt req)
             (Generate.variantOf req) (js "Slovenian") |} ]).
  { unfold request_of. destruct Hlang as [-> | ->]; reflexivity. }
  destruct (negb (str_truthy (env_OPENAI_API_KEY w))).
  - cbn [snd]. intros Hin. exfalso. exact (scraping_log w req _ _ Hs k r Hin).
  - cbv zeta.
    destruct (chat_completions_create w (request_of req sc)); cbn [snd];
      intros Hin; exists sc; rewrite (Hreq Hin); exact Hmsg.
Qed.

Lemma default_language_is_slovenian_witness :
  exists sc,
    messages
      (request_of Sample.byUrl
         {| Generate.h1 := Some (js "Rain boots"); Generate.meta := None |})
    = [ {| role := js "system";
           content :=
             js "You output strictly the requested JSON and nothing else. Respond ONLY in "
             ++ js "Slovenian" ++ js ". Do not use any other language." |};
        {| role := js "user";
           content :=
             Generate.buildPrompt (or_empty (Generate.url Sample.byUrl))
               (Generate.h1 sc) (Generate.meta sc)
               (Generate.customPrompt Sample.byUrl)
               (Generate.variantOf Sample.byUrl) (js "Slovenian") |} ].
Proof.
  apply (default_language_is_slovenian (H := Ref.runtime) Sample.offline
           Sample.byUrl (js "sk-test")).
  - left; reflexivity.
  - vm_compute. right; left; reflexivity.
Defined.

(** * Further properties of the routes *)

(** ** The generation route: statuses, calls and failures *)

Section GenerateRoute.
Context `{JsRuntime}.

Lemma scraping_shape (w : World) (req : Generate.GenerateBody) :
  (str_truthy (Generate.url req) = true /\
   exists o, scraping w req = (o, [scrapeCall req])
     /\ (forall e, axios_get w (or_empty (Generate.url req)) = Thrown e ->
         o = Thrown e)
     /\ (forall html,
            axios_get w (or_empty (Generate.url req)) = Returned html ->
            exists sc, o = Returned sc))
  \/ (str_truthy (Generate.url req) = false /\
      scraping w req
      = (Returned {| Generate.h1 := None; Generate.meta := None |}, [])).
Proof.
  unfold scraping, Generate.scrapePage, bind, emit, ask, lift, ret, scrapeCall.
  destruct (str_truthy (Generate.url req)); [left | right]; split; auto.
  destruct (axios_get w (or_empty (Generate.url req))) as [html|e];
    eexists; (split; [reflexivity|]); split; try discriminate.
  - intros ? _. eexists; reflexivity.
  - intros ? [= <-]; reflexivity.
Qed.

Lemma request_is_valid (req : Generate.GenerateBody) :
  str_truthy (Generate.url req) = true
  \/ present (Generate.variantOf req) = true ->
  negb (str_truthy (Generate.url req))
  && negb (present (Generate.variantOf req)) = false.
Proof. intros [-> | ->]; [reflexivity | apply andb_false_r]. Qed.

Lemma message_or_nonempty (e : JsError) :
  message_or e (js "Neznana napaka") <> [].
Proof.
  destruct e as [m|[m|]]; cbn [message_or or_default].
  - destruct m; [vm_compute; discriminate | discriminate].
  - destruct m; [vm_compute; discriminate | discriminate].
  - vm_compute; discriminate.
Qed.

Lemma answer_shape (req : Generate.GenerateBody) (sc : Generate.ScrapeResult)
    (content : JsString) :
  answer req sc content = parse_failure content
    /\ Generate.parseCompletion content = None
  \/ (exists e, answer req sc content = crashed e)
  \/ (exists parsed l,
         Generate.parseCompletion content = Some parsed
         /\ Generate.normalize parsed = Returned l
         /\ ((length l < 3)%nat /\ answer req sc content = too_few l
             \/ (3 <= length l)%nat
                /\ answer req sc content = success req sc l)).
Proof.
  unfold answer.
  destruct (Generate.parseCompletion content) as [parsed|]; [|left; auto].
  right.
  destruct (Generate.normalize parsed) as [l|e] eqn:Hn; [|left; eauto].
  right. exists parsed, l. repeat split; auto.
  destruct (length l <? 3)%nat eqn:Hl.
  - left. apply Nat.ltb_lt in Hl. auto.
  - right. apply Nat.ltb_ge in Hl. auto.
Qed.

(** The response is one of the six the route builds. *)
Lemma generate_response_cases (w : World) (req : Generate.GenerateBody) :
  fst (Generate.POST w req)
  = NextResponse_json
      (Generate.Failure (js "Zahteva mora vsebovati 'url' ali 'variantOf'.")
         None None) 400
  \/ fst (Generate.POST w req)
     = NextResponse_json
         (Generate.Failure
            (js "Manjka okoljska spremenljivka OPENAI_API_KEY.") None None)
         500
  \/ (exists e, fst (Generate.POST w req) = crashed e)
  \/ (exists content,
         fst (Generate.POST w req) = parse_failure content
         /\ Generate.parseCompletion content = None)
  \/ (exists parsed l,
         Generate.normalize parsed = Returned l
         /\ (length l < 3)%nat /\ fst (Generate.POST w req) = too_few l)
  \/ (exists sc parsed l,
         Generate.normalize parsed = Returned l /\ (3 <= length l)%nat
         /\ (exists log, scraping w req = (Returned sc, log))
         /\ fst (Generate.POST w req) = success req sc l).
Proof.
  rewrite generate_run.
  destruct (negb (str_truthy (Generate.url req))
            && negb (present (Generate.variantOf req))); [left; reflexivity|].
  destruct (scraping w req) as [[sc|e] log] eqn:Hs;
    [|right; right; left; exists e; reflexivity].
  destruct (negb (str_truthy (env_OPENAI_API_KEY w)));
    [right; left; reflexivity|].
  cbv zeta.
  destruct (chat_completions_create w (request_of req sc)) as [c|e];
    [|right; right; left; exists e; reflexivity].
  cbn [fst].
  destruct (answer_shape req sc (or_empty (option_map trim c)))
    as [[-> Hp] | [[e ->] | (parsed & l & Hp & Hn & [[Hl ->] | [Hl ->]])]].
  - right; right; right; left. eauto.
  - right; right; left. eauto.
  - right; right; right; right; left. eauto.
  - right; right; right; right; right. exists sc, parsed, l.
    repeat split; eauto.
Qed.

(** X1.  The generation route answers with status 200, 400, 500 or 502,
    and with no other. *)
Theorem generate_status (w : World) (req : Generate.GenerateBody) :
  In (status (fst (Generate.POST w req))) [200; 400; 500; 502]%Z.
Proof.
  destruct (generate_response_cases w req)
    as [Hr | [Hr | [[e Hr] | [(c & Hr & _) | [(p & l & _ & _ & Hr)
        | (sc & p & l & _ & _ & _ & Hr)]]]]];
    rewrite Hr; simpl; auto.
Qed.

Lemma answer_status (req : Generate.GenerateBody)
    (sc : Generate.ScrapeResult) (content : JsString) :
  In (status (answer req sc content)) [200; 500; 502]%Z.
Proof.
  unfold answer.
  destruct (Generate.parseCompletion content) as [parsed|];
    [|simpl; auto].
  destruct (Generate.normalize parsed) as [l|e]; [|simpl; auto].
  destruct (length l <? 3)%nat; simpl; auto.
Qed.

Lemma bad_request_inv (w : World) (req : Generate.GenerateBody) :
  status (fst (Generate.POST w req)) = 400%Z ->
  str_truthy (Generate.url req) = false
  /\ present (Generate.variantOf req) = false.
Proof.
  rewrite generate_run.
  destruct (str_truthy (Generate.url req));
    destruct (present (Generate.variantOf req)); cbn [negb andb];
    try (intros _; split; reflexivity).
  all: destruct (scraping w req) as [[sc|e] log]; [|discriminate];
    (destruct (negb (str_truthy (env_OPENAI_API_KEY w))); [discriminate|]);
    cbv zeta;
    (destruct (chat_completions_create w _) as [a|e]; [|discriminate]);
    cbn [fst]; intros Hst;
    pose proof (answer_status req sc (or_empty (option_map trim a))) as Hs;
    rewrite Hst in Hs; simpl in Hs; intuition discriminate.
Qed.

(** X2.  The generation route answers 400 exactly when the request has
    neither a base ad nor a non-empty url: an empty url counts as
    missing. *)
Theorem generate_bad_request (w : World) (req : Generate.GenerateBody) :
  status (fst (Generate.POST w req)) = 400%Z <->
  str_truthy (Generate.url req) = false
  /\ present (Generate.variantOf req) = false.
Proof.
  split.
  - apply bad_request_inv.
  - intros [Hu Hv]. rewrite generate_run, Hu, Hv. reflexivity.
Qed.

(** X3.  A generation request makes at most one page fetch and at most one
    completion call, the fetch first; the fetch is a GET of the request's
    url with a timeout of 15000 ms and the user agent Mozilla/5.0, and is
    made only for a non-empty url; the completion call is made with the
    credential of the environment, and only when that is set. *)
Theorem generate_calls (w : World) (req : Generate.GenerateBody) :
  exists scrape upstream,
    snd (Generate.POST w req) = scrape ++ upstream
    /\ (scrape = [] \/ scrape = [scrapeCall req])
    /\ (scrape = [scrapeCall req] -> str_truthy (Generate.url req) = true)
    /\ (upstream = []
        \/ exists sc,
            upstream = [ChatCompletionsCreate
                          (or_empty (env_OPENAI_API_KEY w))
                          (request_of req sc)]
            /\ str_truthy (env_OPENAI_API_KEY w) = true).
Proof.
  rewrite generate_run.
  destruct (negb (str_truthy (Generate.url req))
            && negb (present (Generate.variantOf req))).
  { exists [], []. repeat split; auto. discriminate. }
  assert (Hlog : forall o log, scraping w req = (o, log) ->
            (log = [] \/ log = [scrapeCall req])
            /\ (log = [scrapeCall req] ->
                str_truthy (Generate.url req) = true)).
  { intros o log Hs.
    destruct (scraping_shape w req) as [[Hu (o' & Hs' & _)] | [Hu Hs']];
      rewrite Hs' in Hs; injection Hs as _ <-; split; auto; discriminate. }
  destruct (scraping w req) as [[sc|e] log] eqn:Hs;
    destruct (Hlog _ _ eq_refl) as [Hl Hu].
  2:{ exists log, []. rewrite app_nil_r. repeat split; auto. }
  destruct (str_truthy (env_OPENAI_API_KEY w)) eqn:Hkey; cbn [negb].
  2:{ exists log, []. rewrite app_nil_r. repeat split; auto. }
  cbv zeta.
  exists log, [ChatCompletionsCreate (or_empty (env_OPENAI_API_KEY w))
                 (request_of req sc)].
  destruct (chat_completions_create w (request_of req sc));
    cbn [snd]; repeat split; auto; right; exists sc; auto.
Qed.

(** X4.  When the page of a request with a url cannot be fetched, the
    route answers 500 with the message of the failure (the fallback text
    when that is empty) and does not call the completion API: the fetch is
    its only outbound call. *)
Theorem generate_scrape_failure (w : World) (req : Generate.GenerateBody)
    (e : JsError) :
  str_truthy (Generate.url req) = true ->
  axios_get w (or_empty (Generate.url req)) = Thrown e ->
  Generate.POST w req
  = (NextResponse_json
       (Generate.Failure (message_or e (js "Neznana napaka")) None None) 500,
     [scrapeCall req]).
Proof.
  intros Hu He. rewrite generate_run, Hu. cbn [negb andb].
  destruct (scraping_shape w req) as [[_ (o & -> & Hthrown & _)] | [Hu' _]];
    [|congruence].
  rewrite (Hthrown e He). reflexivity.
Qed.

(** X5.  When the credential is missing or empty, a request that passes
    the check is answered with 500 and the message about the variable, and
    the completion API is not called; the page, if the request has a url,
    has been fetched all the same, since the credential is read after the
    scrape. *)
Theorem generate_missing_key (w : World) (req : Generate.GenerateBody) :
  (str_truthy (Generate.url req) = true
   \/ present (Generate.variantOf req) = true) ->
  (str_truthy (Generate.url req) = true ->
   exists html, axios_get w (or_empty (Generate.url req)) = Returned html) ->
  str_truthy (env_OPENAI_API_KEY w) = false ->
  Generate.POST w req
  = (NextResponse_json
       (Generate.Failure (js "Manjka okoljska spremenljivka OPENAI_API_KEY.")
          None None) 500,
     if str_truthy (Generate.url req) then [scrapeCall req] else []).
Proof.
  intros Hreq Hpage Hkey.
  rewrite generate_run, (request_is_valid req Hreq), Hkey. cbn [negb].
  destruct (scraping_shape w req) as [[Hu (o & -> & _ & Hok)] | [Hu ->]];
    rewrite Hu.
  - destruct (Hpage Hu) as [html Hhtml].
    destruct (Hok html Hhtml) as [sc ->]. reflexivity.
  - reflexivity.
Qed.

(** X6.  When the completion API fails, the route answers 500 with the
    message of the failure (the fallback text when that is empty); the
    call was made with the credential of the environment. *)
Theorem generate_upstream_failure (w : World) (req : Generate.GenerateBody)
    (e : JsError) :
  generation_reaches_upstream w req ->
  (forall r, chat_completions_create w r = Thrown e) ->
  fst (Generate.POST w req)
  = NextResponse_json
      (Generate.Failure (message_or e (js "Neznana napaka")) None None) 500
  /\ exists r,
      In (ChatCompletionsCreate (or_empty (env_OPENAI_API_KEY w)) r)
        (snd (Generate.POST w req)).
Proof.
  intros (Hreq & Hpage & Hkey) He.
  rewrite generate_run, (request_is_valid req Hreq), Hkey. cbn [negb].
  destruct (scraping_fetched w req Hpage) as (sc & log & ->).
  cbv zeta. rewrite He. split; [reflexivity|].
  exists (request_of req sc). cbn [snd]. apply in_or_app. right. left.
  reflexivity.
Qed.

Lemma generate_failure_cases (w : World) (req : Generate.GenerateBody) :
  status (fst (Generate.POST w req)) <> 200%Z ->
  exists e raw items st,
    fst (Generate.POST w req)
    = NextResponse_json (Generate.Failure e raw items) st
    /\ e <> [] /\ In st [400; 500; 502]%Z.
Proof.
  intros Hst.
  destruct (generate_response_cases w req)
    as [Hr | [Hr | [[e Hr] | [(c & Hr & _) | [(p & l & _ & _ & Hr)
        | (sc & p & l & _ & _ & _ & Hr)]]]]];
    rewrite Hr in Hst |- *.
  - eexists; eexists; eexists; eexists. split; [reflexivity|].
    split; [vm_compute; discriminate | simpl; auto].
  - eexists; eexists; eexists; eexists. split; [reflexivity|].
    split; [vm_compute; discriminate | simpl; auto].
  - eexists; eexists; eexists; eexists. split; [reflexivity|].
    split; [apply message_or_nonempty | simpl; auto].
  - eexists; eexists; eexists; eexists. split; [reflexivity|].
    split; [vm_compute; discriminate | simpl; auto].
  - eexists; eexists; eexists; eexists. split; [reflexivity|].
    split; [vm_compute; discriminate | simpl; auto].
  - exfalso. apply Hst. reflexivity.
Qed.

(** X7.  Every response of the generation route other than a 200 has the
    error body, and its error message is not empty. *)
Theorem generate_error_message_nonempty (w : World)
    (req : Generate.GenerateBody) :
  status (fst (Generate.POST w req)) <> 200%Z ->
  exists e raw items,
    body (fst (Generate.POST w req)) = Generate.Failure e raw items
    /\ e <> [].
Proof.
  intros Hst.
  destruct (generate_failure_cases w req Hst)
    as (e & raw & items & st & Hr & He & _).
  exists e, raw, items. rewrite Hr. split; [reflexivity | exact He].
Qed.

(** X8.  The error body by status: a 400 or a 500 carries neither raw nor
    items; a 502 carries either raw, a text on which the parser gives
    nothing, or items, fewer than three ads that are all trimmed and
    complete, and never both. *)
Theorem generate_error_body_shape (w : World) (req : Generate.GenerateBody) :
  (status (fst (Generate.POST w req)) = 400%Z
   \/ status (fst (Generate.POST w req)) = 500%Z ->
   exists e, body (fst (Generate.POST w req)) = Generate.Failure e None None)
  /\ (status (fst (Generate.POST w req)) = 502%Z ->
      (exists e raw,
          body (fst (Generate.POST w req)) = Generate.Failure e (Some raw) None
          /\ Generate.parseCompletion raw = None)
      \/ (exists e items,
             body (fst (Generate.POST w req))
             = Generate.Failure e None (Some items)
             /\ (length items < 3)%nat /\ Forall valid_ad items)).
Proof.
  destruct (generate_response_cases w req)
    as [Hr | [Hr | [[e Hr] | [(c & Hr & Hc) | [(p & l & Hn & Hl & Hr)
        | (sc & p & l & _ & _ & _ & Hr)]]]]];
    rewrite Hr; split;
    try (intros [Hst | Hst]; discriminate Hst);
    try (intros Hst; discriminate Hst);
    try (intros _; eexists; reflexivity).
  - intros _. left. exists (js "Neveljaven JSON iz OpenAI."), c. auto.
  - intros _. right. exists (js "Prejetih je premalo oglasov."), l.
    repeat split; auto. exact (proj2 (normalize_valid p l Hn)).
Qed.





(** X11.  Only the first three parsed items count: a completion text with
    further items, whatever they are, gets the same response and the same
    calls as the text with the first three alone. *)
Theorem generate_first_three_only (w : World) (req : Generate.GenerateBody)
    (c c' : JsString) (a b d : Value) (extra : list Value) :
  Generate.parseCompletion (trim c) = Some (a :: b :: d :: extra) ->
  Generate.parseCompletion (trim c') = Some [a; b; d] ->
  Generate.POST (answering w c) req = Generate.POST (answering w c') req.
Proof.
  intros Hc Hc'.
  rewrite !generate_run, !scraping_answering.
  destruct (negb (str_truthy (Generate.url req))
            && negb (present (Generate.variantOf req))); [reflexivity|].
  destruct (scraping w req) as [[sc|e] log]; [|reflexivity].
  cbn [env_OPENAI_API_KEY chat_completions_create answering].
  destruct (negb (str_truthy (env_OPENAI_API_KEY w))); [reflexivity|].
  cbn [option_map or_empty]. unfold answer. rewrite Hc, Hc'. reflexivity.
Qed.

Lemma opt_or_none_clean (a : option JsString) :
  (forall s, a = Some s -> trim s = s) ->
  absent_or_clean (Generate.opt_or a None).
Proof.
  intros Ha. unfold Generate.opt_or, str_truthy.
  destruct a as [s|]; [|left; reflexivity].
  destruct (nonempty s) eqn:Hs; [|left; reflexivity].
  right. exists s. repeat split; auto using nonempty_true.
Qed.

Lemma scraping_clean (w : World) (req : Generate.GenerateBody)
    (sc : Generate.ScrapeResult) (log : list Call) :
  scraping w req = (Returned sc, log) ->
  absent_or_clean (Generate.h1 sc) /\ absent_or_clean (Generate.meta sc)
  /\ (str_truthy (Generate.url req) = false ->
      Generate.h1 sc = None /\ Generate.meta sc = None).
Proof.
  unfold scraping, Generate.scrapePage, bind, emit, ask, lift, ret.
  destruct (str_truthy (Generate.url req)).
  - destruct (axios_get w (or_empty (Generate.url req))) as [html|e];
      [|discriminate].
    intros [= <- _]. cbn [Generate.h1 Generate.meta].
    split; [|split; [|discriminate]].
    + apply opt_or_none_clean. intros s [= <-]. apply trim_idem.
    + apply opt_or_none_clean. intros s.
      unfold Generate.opt_or.
      destruct (str_truthy _);
        destruct (cheerio_attr_content w html _) as [x|]; simpl;
        try discriminate; try (intros [= <-]; apply trim_idem).
      all: destruct (cheerio_attr_content w html _) as [y|]; simpl;
        try discriminate; intros [= <-]; apply trim_idem.
  - intros [= <- _]. repeat split; try (left; reflexivity).
Qed.

(** X12.  The source of a 200: its url is the url of the request as it
    came, variant tells whether the request had a base ad, and h1 and meta
    are each either absent or a trimmed, non-empty text; both are absent
    when the request has no url. *)
Theorem generate_success_source (w : World) (req : Generate.GenerateBody) :
  status (fst (Generate.POST w req)) = 200%Z ->
  exists src ads,
    body (fst (Generate.POST w req)) = Generate.Ads src ads
    /\ Generate.source_url src = Generate.url req
    /\ Generate.variant src = present (Generate.variantOf req)
    /\ absent_or_clean (Generate.source_h1 src)
    /\ absent_or_clean (Generate.source_meta src)
    /\ (str_truthy (Generate.url req) = false ->
        Generate.source_h1 src = None /\ Generate.source_meta src = None).
Proof.
  intros Hst.
  destruct (generate_response_cases w req)
    as [Hr | [Hr | [[e Hr] | [(c & Hr & _) | [(p & l & _ & _ & Hr)
        | (sc & p & l & _ & _ & [log Hs] & Hr)]]]]];
    rewrite Hr in Hst |- *; try discriminate Hst.
  destruct (scraping_clean w req sc log Hs) as (Hh & Hm & Hnone).
  eexists; eexists. split; [reflexivity|]. cbn [Generate.source_url
    Generate.variant Generate.source_h1 Generate.source_meta]. auto.
Qed.

End GenerateRoute.

(** ** scrapePage, and the array inside prose *)

Section ScrapeAndFallback.
Context `{JsRuntime}.

Lemma blank_not_truthy (o : option JsString) :
  blank o -> str_truthy (option_map trim o) = false.
Proof. intros [-> | (x & -> & Hx)]; simpl; [|rewrite Hx]; reflexivity. Qed.

Lemma filled_truthy (x : JsString) :
  trim x <> [] -> str_truthy (Some (trim x)) = true.
Proof. simpl. destruct (trim x); [contradiction | reflexivity]. Qed.

(** X13.  What scrapePage returns for a fetched page, and the one call it
    logs: h1 is the trimmed text of the first h1, absent when that is
    empty; meta is the trimmed content of the description tag when that is
    not blank, else the trimmed content of the Open Graph description when
    that is not blank, else absent. *)
Theorem scrapePage_result (u : JsString) (w : World) (log : list Call)
    (html : JsString) :
  axios_get w u = Returned html ->
  exists sc,
    Generate.scrapePage u w log
    = (Returned sc, log ++ [AxiosGet u 15000 (js "Mozilla/5.0")])
    /\ (trim (cheerio_h1_text w html) = [] -> Generate.h1 sc = None)
    /\ (trim (cheerio_h1_text w html) <> [] ->
        Generate.h1 sc = Some (trim (cheerio_h1_text w html)))
    /\ (forall x,
           cheerio_attr_content w html descriptionSelector = Some x ->
           trim x <> [] -> Generate.meta sc = Some (trim x))
    /\ (blank (cheerio_attr_content w html descriptionSelector) ->
        (forall y,
            cheerio_attr_content w html ogDescriptionSelector = Some y ->
            trim y <> [] -> Generate.meta sc = Some (trim y))
        /\ (blank (cheerio_attr_content w html ogDescriptionSelector) ->
            Generate.meta sc = None)).
Proof.
  intros Hhtml.
  unfold Generate.scrapePage, bind, emit, ask, lift, ret.
  rewrite Hhtml. eexists. split; [reflexivity|].
  cbn [Generate.h1 Generate.meta].
  fold descriptionSelector ogDescriptionSelector.
  unfold Generate.opt_or.
  split; [|split; [|split]].
  - intros ->. reflexivity.
  - intros Hne. rewrite (filled_truthy _ Hne). reflexivity.
  - intros x Hx Hne. rewrite Hx.
    cbn [option_map]. rewrite (filled_truthy _ Hne).
    rewrite (filled_truthy _ Hne). reflexivity.
  - intros Hd.
    rewrite (blank_not_truthy _ Hd). split.
    + intros y Hy Hne. rewrite Hy. cbn [option_map].
      rewrite (filled_truthy _ Hne). reflexivity.
    + intros Ho. rewrite (blank_not_truthy _ Ho). reflexivity.
Qed.

Lemma indexOf_first (pre rest : JsString) (c : N) :
  ~ In c pre -> indexOf (pre ++ c :: rest) c = Z.of_nat (length pre).
Proof.
  induction pre as [|x r IH]; intros Hnot.
  - simpl. rewrite N.eqb_refl. reflexivity.
  - cbn [app indexOf length].
    destruct (x =? c)%N eqn:E.
    + apply N.eqb_eq in E. exfalso. apply Hnot. left. exact E.
    + rewrite IH by (intros Hin; apply Hnot; right; exact Hin).
      destruct (Z.of_nat (length r) =? -1)%Z eqn:E';
        [apply Z.eqb_eq in E'; lia|].
      rewrite Nat2Z.inj_succ. clear. lia.
Qed.

Lemma lastIndexOf_last (pre post : JsString) (c : N) :
  ~ In c post -> lastIndexOf (pre ++ c :: post) c = Z.of_nat (length pre).
Proof.
  intros Hnot. unfold lastIndexOf.
  rewrite rev_app_distr. cbn [rev]. rewrite <- app_assoc. cbn [app].
  rewrite indexOf_first by (rewrite <- in_rev; exact Hnot).
  rewrite length_rev, length_app. cbn [length].
  destruct (Z.of_nat (length post) =? -1)%Z eqn:E;
    [apply Z.eqb_eq in E|]; lia.
Qed.

Lemma slice_middle (pre mid post : JsString) :
  slice (pre ++ mid ++ post) (Z.of_nat (length pre))
    (Z.of_nat (length pre + length mid)) = mid.
Proof.
  unfold slice, slice_index. rewrite !length_app.
  assert (Hlt1 : (Z.of_nat (length pre) <? 0)%Z = false)
    by (apply Z.ltb_ge; lia).
  assert (Hlt2 : (Z.of_nat (length pre + length mid) <? 0)%Z = false)
    by (apply Z.ltb_ge; lia).
  rewrite Hlt1, Hlt2.
  rewrite !Z.min_l by lia.
  replace (Z.to_nat (Z.of_nat (length pre + length mid) - Z.of_nat (length pre)))
    with (length mid) by lia.
  rewrite Nat2Z.id.
  rewrite skipn_app, skipn_all, Nat.sub_diag. cbn [app skipn].
  rewrite firstn_app, firstn_all, Nat.sub_diag. cbn [firstn].
  apply app_nil_r.
Qed.

Lemma bracketed_in_prose (pre inner post : JsString) :
  ~ In 91%N pre -> ~ In 93%N post ->
  let content := pre ++ (91%N :: inner ++ [93%N]) ++ post in
  indexOf content 91%N = Z.of_nat (length pre)
  /\ lastIndexOf content 93%N = Z.of_nat (length pre + length inner + 1)
  /\ bracketed content = 91%N :: inner ++ [93%N].
Proof.
  intros Hpre Hpost content.
  assert (Hfirst : indexOf content 91%N = Z.of_nat (length pre)).
  { unfold content. cbn [app]. apply indexOf_first. exact Hpre. }
  assert (Hlast : lastIndexOf content 93%N
                  = Z.of_nat (length pre + length inner + 1)).
  { unfold content.
    replace (pre ++ (91%N :: inner ++ [93%N]) ++ post)
      with ((pre ++ 91%N :: inner) ++ 93%N :: post)
      by (rewrite <- !app_assoc; cbn [app]; rewrite <- app_assoc; reflexivity).
    rewrite lastIndexOf_last by exact Hpost.
    rewrite length_app. cbn [length]. f_equal. lia. }
  repeat split; auto.
  unfold bracketed. rewrite Hfirst, Hlast.
  replace (Z.of_nat (length pre + length inner + 1) + 1)%Z
    with (Z.of_nat (length pre + length (91%N :: inner ++ [93%N]))).
  - apply slice_middle.
  - cbn [length]. rewrite length_app. cbn [length]. lia.
Qed.

(** X14.  A completion text that wraps a JSON array in prose is still
    accepted: when the text as a whole does not pass the first tier, its
    first opening bracket opens the array and its last closing bracket
    closes it, the ad list is the array, if it is not empty. *)
Theorem generate_array_in_prose (pre inner post : JsString) (x : Value)
    (rest : list Value) :
  ~ In 91%N pre -> ~ In 93%N post ->
  strict_tier_fails (pre ++ (91%N :: inner ++ [93%N]) ++ post) ->
  JSON_parse (91%N :: inner ++ [93%N]) = Some (JArr (x :: rest)) ->
  Generate.parseCompletion (pre ++ (91%N :: inner ++ [93%N]) ++ post)
  = Some (x :: rest).
Proof.
  intros Hpre Hpost Hfail Hp.
  destruct (bracketed_in_prose pre inner post Hpre Hpost) as (Hs & He & Hb).
  cbv zeta in Hs, He, Hb.
  unfold Generate.parseCompletion.
  rewrite (parseStrict_fails _ Hfail).
  rewrite (parseBracketed_found _ x rest); try reflexivity.
  - rewrite Hs. lia.
  - rewrite He. lia.
  - rewrite Hs, He. lia.
  - rewrite Hb. exact Hp.
Qed.

End ScrapeAndFallback.

(** ** The translation route: statuses, calls and failures *)

Section TranslateRoute.
Context `{JsRuntime}.

Lemma translation_input_reaches (w : World) (payload : Value) :
  translation_reaches_upstream w payload <->
  (exists items t, translation_input payload = Some (items, t))
  /\ str_truthy (env_OPENAI_API_KEY w) = true.
Proof.
  unfold translation_reaches_upstream, translation_input. split.
  - intros [(items & t & -> & -> & ->) Hk]. split; eauto.
  - intros [(items & t & Hin) Hk]. split; auto.
    destruct (prop payload (js "ads")) as [[| | | |l|]|]; try discriminate;
      destruct (prop payload (js "targetLanguage")) as [t'|];
      try discriminate.
    destruct (truthy t') eqn:Ht; [|discriminate].
    injection Hin as <- <-. eauto.
Qed.

Lemma translate_run (w : World) (payload : Value) :
  Translate.POST w payload =
  match payload with
  | JNull =>
      (translate_crashed
         (ErrorObject
            (js "Cannot destructure property 'ads' of '(intermediate value)' as it is null.")),
       [])
  | _ => translate_checked w payload
  end.
Proof.
  unfold Translate.POST, try_catch, Translate.handle, bind, ask, emit, lift,
    ret, throw, translate_checked, translation_input.
  destruct payload as [| | | | |props]; reduce; try reflexivity.
  destruct (prop (JObj props) (js "ads")) as [[| | | |items|]|];
    reduce; try reflexivity;
    destruct (prop (JObj props) (js "targetLanguage")) as [t|];
    reduce; try reflexivity.
  destruct (truthy t); reduce; [|reflexivity].
  destruct (str_truthy (env_OPENAI_API_KEY w)); reduce; [|reflexivity].
  apply translate_upstream_run.
Qed.

Lemma translate_run_checked (w : World) (payload : Value) :
  payload <> JNull -> Translate.POST w payload = translate_checked w payload.
Proof.
  intros Hnn. rewrite translate_run.
  destruct payload; try reflexivity. contradiction.
Qed.

Lemma translated_status (content : JsString) :
  In (status (translated content)) [200; 502]%Z.
Proof.
  unfold translated. destruct (Translate.parseAds content); simpl; auto.
Qed.

Lemma translate_checked_status (w : World) (payload : Value) :
  In (status (fst (translate_checked w payload))) [200; 400; 500; 502]%Z.
Proof.
  unfold translate_checked.
  destruct (translation_input payload) as [[items t]|]; [|simpl; auto].
  destruct (str_truthy (env_OPENAI_API_KEY w)); [|simpl; auto].
  destruct (chat_completions_create w _) as [a|e]; [|simpl; auto].
  cbn [fst].
  pose proof (translated_status (or_empty (option_map trim a))) as Hs.
  simpl in Hs |- *. intuition.
Qed.

(** The response is one of the six the route builds. *)
Lemma translate_response_cases (w : World) (payload : Value) :
  (exists e st,
      fst (Translate.POST w payload)
      = NextResponse_json (Translate.Failure e None) st
      /\ (st = 400%Z \/ st = 500%Z))
  \/ (exists content,
         fst (Translate.POST w payload) = invalid_json content
         /\ Translate.parseAds content = [])
  \/ (exists x rest,
         fst (Translate.POST w payload)
         = NextResponse_json (Translate.Ads (x :: rest)) 200).
Proof.
  rewrite translate_run.
  assert (Hc :
    (exists e st,
        fst (translate_checked w payload)
        = NextResponse_json (Translate.Failure e None) st
        /\ (st = 400%Z \/ st = 500%Z))
    \/ (exists content,
           fst (translate_checked w payload) = invalid_json content
           /\ Translate.parseAds content = [])
    \/ (exists x rest,
           fst (translate_checked w payload)
           = NextResponse_json (Translate.Ads (x :: rest)) 200)).
  { unfold translate_checked.
    destruct (translation_input payload) as [[items t]|];
      [|left; eexists; eexists; split; [reflexivity | left; reflexivity]].
    destruct (str_truthy (env_OPENAI_API_KEY w));
      [|left; eexists; eexists; split; [reflexivity | right; reflexivity]].
    destruct (chat_completions_create w _) as [a|e];
      [|left; eexists; eexists; split; [reflexivity | right; reflexivity]].
    cbn [fst]. unfold translated.
    destruct (Translate.parseAds (or_empty (option_map trim a)))
      as [|x rest] eqn:Hp.
    - right; left. eauto.
    - right; right. eauto. }
  destruct payload; try exact Hc.
  left; eexists; eexists; split; [reflexivity | right; reflexivity].
Qed.

Lemma translate_bad_request_inv (w : World) (payload : Value) :
  status (fst (Translate.POST w payload)) = 400%Z ->
  payload <> JNull /\ translation_input payload = None.
Proof.
  intros Hst.
  assert (Hnn : payload <> JNull).
  { intros ->. rewrite translate_run in Hst. discriminate Hst. }
  split; [exact Hnn|].
  rewrite (translate_run_checked w payload Hnn) in Hst.
  unfold translate_checked in Hst.
  destruct (translation_input payload) as [[items t]|]; [|reflexivity].
  exfalso.
  destruct (str_truthy (env_OPENAI_API_KEY w)); [|discriminate Hst].
  destruct (chat_completions_create w _) as [a|e]; [|discriminate Hst].
  cbn [fst] in Hst.
  pose proof (translated_status (or_empty (option_map trim a))) as Hs.
  rewrite Hst in Hs. simpl in Hs. intuition discriminate.
Qed.

(** X15.  The translation route answers with status 200, 400, 500 or 502,
    and with no other. *)
Theorem translate_status (w : World) (payload : Value) :
  In (status (fst (Translate.POST w payload))) [200; 400; 500; 502]%Z.
Proof.
  rewrite translate_run.
  destruct payload; try apply translate_checked_status. simpl; auto.
Qed.


(** X17.  The translation route answers 400 exactly when the body is not
    null and either ads is not an array or targetLanguage is missing or
    falsy; an empty ads array passes the check. *)
Theorem translate_bad_request (w : World) (payload : Value) :
  (status (fst (Translate.POST w payload)) = 400%Z <->
   payload <> JNull /\ translation_input payload = None)
  /\ (forall t,
         prop payload (js "ads") = Some (JArr []) ->
         prop payload (js "targetLanguage") = Some t -> truthy t = true ->
         status (fst (Translate.POST w payload)) <> 400%Z).
Proof.
  assert (Hiff : status (fst (Translate.POST w payload)) = 400%Z <->
                 payload <> JNull /\ translation_input payload = None).
  { split.
    - apply translate_bad_request_inv.
    - intros [Hnn Hin]. rewrite (translate_run_checked w payload Hnn).
      unfold translate_checked. rewrite Hin. reflexivity. }
  split; [exact Hiff|].
  intros t Hads Ht Htruthy Hst. apply Hiff in Hst as [_ Hin].
  unfold translation_input in Hin. rewrite Hads, Ht, Htruthy in Hin.
  discriminate Hin.
Qed.

(** X18.  When the credential is missing or empty, a translation request
    that passes the check is answered with 500 and the message about the
    variable, and there is no outbound call. *)
Theorem translate_missing_key_no_call (w : World) (payload : Value)
    (items : list Value) (t : Value) :
  translation_input payload = Some (items, t) ->
  str_truthy (env_OPENAI_API_KEY w) = false ->
  Translate.POST w payload
  = (NextResponse_json
       (Translate.Failure (js "Manjka okoljska spremenljivka OPENAI_API_KEY.")
          None) 500,
     []).
Proof.
  intros Hin Hk. rewrite translate_run. unfold translate_checked.
  rewrite Hin, Hk.
  destruct payload; try discriminate Hin; reflexivity.
Qed.

(** X19.  When the completion API fails, the translation route answers
    500; the error is the message of the failure as it is, even when
    empty, if an Error was thrown, and the fallback text for any other
    thrown value. *)
Theorem translate_upstream_failure (w : World) (payload : Value)
    (e : JsError) :
  translation_reaches_upstream w payload ->
  (forall r, chat_completions_create w r = Thrown e) ->
  fst (Translate.POST w payload)
  = NextResponse_json
      (Translate.Failure
         (match e with
          | ErrorObject m => m
          | ThrownValue _ => js "Neznana napaka"
          end) None) 500.
Proof.
  intros Hr He.
  apply translation_input_reaches in Hr as [(items & t & Hin) Hk].
  rewrite translate_run. unfold translate_checked. rewrite Hin, Hk, He.
  destruct payload; try discriminate Hin; destruct e; reflexivity.
Qed.

(** X20.  A 502 of the translation route always carries raw: the trimmed
    text of a completion the API returned (the empty string when it
    returned none), in which the route found no ads. *)
Theorem translate_502_shape (w : World) (payload : Value) :
  status (fst (Translate.POST w payload)) = 502%Z ->
  exists completion raw,
    (exists r, chat_completions_create w r = Returned completion)
    /\ raw = or_empty (option_map trim completion)
    /\ Translate.parseAds raw = []
    /\ body (fst (Translate.POST w payload))
       = Translate.Failure (js "Neveljaven JSON iz OpenAI.") (Some raw).
Proof.
  intros Hst.
  assert (Hnn : payload <> JNull).
  { intros ->. rewrite translate_run in Hst. discriminate Hst. }
  rewrite (translate_run_checked w payload Hnn) in Hst |- *.
  unfold translate_checked in Hst |- *.
  destruct (translation_input payload) as [[items t]|]; [|discriminate].
  destruct (str_truthy (env_OPENAI_API_KEY w)); [|discriminate].
  destruct (chat_completions_create w _) as [a|e] eqn:Ha; [|discriminate].
  cbn [fst] in Hst |- *. unfold translated in Hst |- *.
  destruct (Translate.parseAds (or_empty (option_map trim a))) eqn:Hp;
    [|discriminate].
  exists a, (or_empty (option_map trim a)). repeat split; eauto.
Qed.

End TranslateRoute.

(** ** The further properties on the sample worlds *)

Lemma generate_scrape_failure_witness :
  Generate.POST (H := Ref.runtime) Cases.unreachable Sample.byUrl
  = (NextResponse_json
       (Generate.Failure
          (message_or (ErrorObject (js "getaddrinfo ENOTFOUND"))
             (js "Neznana napaka")) None None) 500,
     [scrapeCall Sample.byUrl]).
Proof.
  apply (generate_scrape_failure (H := Ref.runtime)); reflexivity.
Defined.

Lemma generate_missing_key_witness :
  Generate.POST (H := Ref.runtime) Cases.noKey Sample.byUrl
  = (NextResponse_json
       (Generate.Failure (js "Manjka okoljska spremenljivka OPENAI_API_KEY.")
          None None) 500,
     if str_truthy (Generate.url Sample.byUrl)
     then [scrapeCall Sample.byUrl] else []).
Proof.
  apply (generate_missing_key (H := Ref.runtime)).
  - left; reflexivity.
  - intros _; eexists; reflexivity.
  - reflexivity.
Defined.

Lemma generate_upstream_failure_witness :
  fst (Generate.POST (H := Ref.runtime) Sample.offline Sample.byUrl)
  = NextResponse_json
      (Generate.Failure
         (message_or (ErrorObject (js "Connection error."))
            (js "Neznana napaka")) None None) 500
  /\ exists r,
      In (ChatCompletionsCreate (or_empty (env_OPENAI_API_KEY Sample.offline))
            r)
        (snd (Generate.POST (H := Ref.runtime) Sample.offline Sample.byUrl)).
Proof.
  apply (generate_upstream_failure (H := Ref.runtime)).
  - split; [left; reflexivity|].
    split; [intros _; eexists; reflexivity | reflexivity].
  - intros r; reflexivity.
Defined.

Lemma generate_error_message_nonempty_witness :
  exists e raw items,
    body (fst (Generate.POST (H := Ref.runtime) Sample.offline Sample.byUrl))
    = Generate.Failure e raw items
    /\ e <> [].
Proof.
  apply (generate_error_message_nonempty (H := Ref.runtime)).
  vm_compute. discriminate.
Defined.



Lemma generate_first_three_only_witness :
  Generate.POST (H := Ref.runtime)
    (answering Sample.offline Cases.fourItems) Sample.byUrl
  = Generate.POST (H := Ref.runtime)
      (answering Sample.offline Cases.threeItems) Sample.byUrl.
Proof.
  apply (generate_first_three_only (H := Ref.runtime) Sample.offline
           Sample.byUrl Cases.fourItems Cases.threeItems
           Cases.adABC Cases.adABC Cases.adABC [JNull]);
    vm_compute; reflexivity.
Defined.

Lemma generate_success_source_witness :
  exists src ads,
    body (fst (Generate.POST (H := Ref.runtime)
                 (answering Sample.offline Sample.threeAds) Sample.byUrl))
    = Generate.Ads src ads
    /\ Generate.source_url src = Generate.url Sample.byUrl
    /\ Generate.variant src = present (Generate.variantOf Sample.byUrl)
    /\ absent_or_clean (Generate.source_h1 src)
    /\ absent_or_clean (Generate.source_meta src)
    /\ (str_truthy (Generate.url Sample.byUrl) = false ->
        Generate.source_h1 src = None /\ Generate.source_meta src = None).
Proof.
  apply (generate_success_source (H := Ref.runtime)).
  vm_compute. reflexivity.
Defined.

Lemma scrapePage_result_witness :
  exists sc,
    Generate.scrapePage (js "https://shop.example/boots") Cases.withOg []
    = (Returned sc,
       [] ++ [AxiosGet (js "https://shop.example/boots") 15000
                (js "Mozilla/5.0")])
    /\ (trim (cheerio_h1_text Cases.withOg (js "<html></html>")) = [] ->
        Generate.h1 sc = None)
    /\ (trim (cheerio_h1_text Cases.withOg (js "<html></html>")) <> [] ->
        Generate.h1 sc
        = Some (trim (cheerio_h1_text Cases.withOg (js "<html></html>"))))
    /\ (forall x,
           cheerio_attr_content Cases.withOg (js "<html></html>")
             descriptionSelector = Some x ->
           trim x <> [] -> Generate.meta sc = Some (trim x))
    /\ (blank (cheerio_attr_content Cases.withOg (js "<html></html>")
                 descriptionSelector) ->
        (forall y,
            cheerio_attr_content Cases.withOg (js "<html></html>")
              ogDescriptionSelector = Some y ->
            trim y <> [] -> Generate.meta sc = Some (trim y))
        /\ (blank (cheerio_attr_content Cases.withOg (js "<html></html>")
                     ogDescriptionSelector) ->
            Generate.meta sc = None)).
Proof.
  apply scrapePage_result. reflexivity.
Defined.

Lemma generate_array_in_prose_witness :
  Generate.parseCompletion (H := Ref.runtime)
    (js "Ads: "
     ++ (91%N :: Ref.text "{'title':'A','description':'B','cta':'C'}"
           ++ [93%N])
     ++ js " Enjoy!")
  = Some [Cases.adABC].
Proof.
  apply (generate_array_in_prose (H := Ref.runtime)).
  - vm_compute. intuition discriminate.
  - vm_compute. intuition discriminate.
  - left. vm_compute. reflexivity.
  - vm_compute. reflexivity.
Defined.

Lemma translate_missing_key_no_call_witness :
  Translate.POST (H := Ref.runtime) Cases.noKey Sample.toGerman
  = (NextResponse_json
       (Translate.Failure (js "Manjka okoljska spremenljivka OPENAI_API_KEY.")
          None) 500,
     []).
Proof.
  apply (translate_missing_key_no_call (H := Ref.runtime) Cases.noKey
           Sample.toGerman [Cases.adABC] (JStr (js "German")));
    vm_compute; reflexivity.
Defined.

Lemma translate_upstream_failure_witness :
  fst (Translate.POST (H := Ref.runtime) Sample.offline Sample.toGerman)
  = NextResponse_json (Translate.Failure (js "Connection error.") None) 500.
Proof.
  apply (translate_upstream_failure (H := Ref.runtime) Sample.offline
           Sample.toGerman (ErrorObject (js "Connection error."))).
  - split; [|reflexivity].
    eexists; eexists. repeat split; vm_compute; reflexivity.
  - intros r; reflexivity.
Defined.

Lemma translate_502_shape_witness :
  exists completion raw,
    (exists r,
        chat_completions_create (answering Sample.offline Sample.truncated) r
        = Returned completion)
    /\ raw = or_empty (option_map trim completion)
    /\ Translate.parseAds (H := Ref.runtime) raw = []
    /\ body (fst (Translate.POST (H := Ref.runtime)
                    (answering Sample.offline Sample.truncated)
                    Sample.toGerman))
       = Translate.Failure (js "Neveljaven JSON iz OpenAI.") (Some raw).
Proof.
  apply (translate_502_shape (H := Ref.runtime)).
  vm_compute. reflexivity.
Defined.

(** * Properties of the page *)

(** ** The history and its stored copy *)

Section PageFacts.
Context `{JsRuntime}.

Lemma failed_history (e : JsError) (c : Page.Client) :
  history_of (Page.failed e c) = history_of c
  /\ Page.stored (Page.failed e c) = Page.stored c.
Proof. split; reflexivity. Qed.

Lemma pushHistory_history (b : Page.Browser)
    (entry : list (JsString * Value)) (c : Page.Client) :
  history_of (Page.pushHistory b entry c)
  = Page.newEntry b entry :: firstn 99 (history_of c).
Proof. reflexivity. Qed.

Lemma pushHistory_bound (b : Page.Browser)
    (entry : list (JsString * Value)) (c : Page.Client) :
  (length (history_of (Page.pushHistory b entry c)) <= 100)%nat.
Proof.
  rewrite pushHistory_history. cbn [length].
  pose proof (firstn_le_length 99 (history_of c)). lia.
Qed.

Lemma pushHistory_sync (b : Page.Browser)
    (entry : list (JsString * Value)) (c : Page.Client) :
  storage_works b -> in_sync (Page.pushHistory b entry c).
Proof.
  intros [Hb Ht]. unfold in_sync, Page.pushHistory, Page.persistHistory.
  cbn [Page.stored]. rewrite Hb, Ht. reflexivity.
Qed.

(** Each handler either leaves history and item alone or ends with a
    pushHistory or a clearHistory. *)
Lemma step_cases (b : Page.Browser) (a : Action) (c : Page.Client) :
  (history_of (step b a c) = history_of c
   /\ Page.stored (step b a c) = Page.stored c)
  \/ (exists entry c',
         history_of c' = history_of c /\ Page.stored c' = Page.stored c
         /\ history_of (step b a c) = history_of (Page.pushHistory b entry c')
         /\ Page.stored (step b a c)
            = Page.stored (Page.pushHistory b entry c'))
  \/ (a = Clear).
Proof.
  destruct a; cbn [step]; [| |right; right; reflexivity|left; split; reflexivity].
  - unfold Page.onSubmit. cbn [fst].
    destruct (negb (nonempty (Page.url (Page.state c))));
      [left; split; reflexivity|].
    cbn [fst].
    destruct (Page.fetch_generate b _) as [res|e]; [|left; split; reflexivity].
    destruct (Page.json res) as [data|e]; [|left; split; reflexivity].
    destruct (negb (Page.ok res)); [left; split; reflexivity|].
    destruct data; try (left; split; reflexivity);
      (destruct (Page.URL_hostname b _) as [host|e];
       [|left; split; reflexivity]);
      right; left; eexists; eexists;
      (split; [|split; [|split; reflexivity]]); reflexivity.
  - unfold Page.onTranslate. cbn [fst].
    destruct (Page.fetch_translate b _) as [res|e];
      [|left; split; reflexivity].
    destruct (Page.json res) as [data|e]; [|left; split; reflexivity].
    destruct (negb (Page.ok res)); [left; split; reflexivity|].
    destruct data; try (left; split; reflexivity);
      right; left; eexists; eexists;
      (split; [|split; [|split; reflexivity]]); reflexivity.
Qed.

(** X21.  The history never grows past 100 entries: whatever the user
    does after the component is mounted (submit, translate, clear, select,
    one handler after the other), in whatever browser, a history of at
    most 100 entries stays at most 100 entries long. *)
Theorem history_bounded (l : list (Page.Browser * Action))
    (c : Page.Client) :
  (length (history_of c) <= 100)%nat ->
  (length (history_of (run l c)) <= 100)%nat.
Proof.
  revert c. induction l as [|[b a] r IH]; intros c Hc; [exact Hc|].
  cbn [run]. apply IH.
  destruct (step_cases b a c)
    as [[-> _] | [(entry & c' & _ & _ & -> & _) | ->]].
  - exact Hc.
  - apply pushHistory_bound.
  - cbn. lia.
Qed.

(** X22.  While localStorage works, the stored item stays the JSON text of
    the history shown through any session of submit, translate, clear and
    select: no handler changes one without the other. *)
Theorem storage_in_sync (l : list (Page.Browser * Action))
    (c : Page.Client) :
  Forall (fun ba => storage_works (fst ba)) l ->
  in_sync c -> in_sync (run l c).
Proof.
  revert c. induction l as [|[b a] r IH]; intros c Hl Hc; [exact Hc|].
  inversion Hl as [|? ? Hb Hr]; subst. cbn [fst] in Hb.
  cbn [run]. apply IH; [exact Hr|].
  unfold in_sync in *.
  destruct (step_cases b a c)
    as [[-> ->] | [(entry & c' & _ & _ & -> & ->) | ->]].
  - exact Hc.
  - apply pushHistory_sync. exact Hb.
  - destruct Hb as [Hb Ht]. cbn [step].
    unfold Page.clearHistory, Page.persistHistory, history_of.
    cbn [Page.stored Page.state Page.history Page.set_history].
    rewrite Hb, Ht. reflexivity.
Qed.

End PageFacts.

(** ** The handlers against the routes *)

Section PageHandlers.
Context `{JsRuntime}.

Lemma nonempty_of (s : JsString) : s <> [] -> nonempty s = true.
Proof. destruct s; [contradiction | reflexivity]. Qed.

Lemma not_ok (st : Z) :
  In st [400; 500; 502]%Z -> Page.is_ok st = false.
Proof. intros [<- | [<- | [<- | []]]]; reflexivity. Qed.

(** X23.  onSubmit sends a request only when the url field is not empty,
    and what it sends then is never answered with 400 by the generation
    route. *)
Theorem submit_passes_the_check (w : World) (b : Page.Browser)
    (c : Page.Client) (request : Generate.GenerateBody) :
  In (Page.ToGenerate request) (snd (Page.onSubmit (Page.served w b) c)) ->
  Page.url (Page.state c) <> []
  /\ request = Page.generateRequest (Page.state c)
  /\ status (fst (Generate.POST w request)) <> 400%Z.
Proof.
  unfold Page.onSubmit.
  destruct (Page.url (Page.state c)) as [|u0 u] eqn:Hu;
    cbn [nonempty negb snd]; [intros []|].
  intros [[= <-] | []].
  split; [discriminate|]. split; [reflexivity|].
  intros Hst. apply bad_request_inv in Hst as [Hurl _].
  unfold Page.generateRequest in Hurl. cbn [Generate.url] in Hurl.
  rewrite Hu in Hurl. discriminate Hurl.
Qed.

(** X24.  When the translate button is enabled on a list of ads, the
    request its click sends is never answered with 400 by the translation
    route. *)
Theorem translate_click_passes_the_check (w : World) (b : Page.Browser)
    (c : Page.Client) (request : Value) :
  Page.canTranslate (Page.state c) = true ->
  In (Page.ToTranslate request) (snd (Page.onTranslate (Page.served w b) c)) ->
  request = Page.translateRequest (Page.state c)
  /\ status (fst (Translate.POST w request)) <> 400%Z.
Proof.
  unfold Page.canTranslate, Page.onTranslate. cbn [snd].
  intros Hcan [[= <-] | []]. split; [reflexivity|].
  destruct (Page.ads (Page.state c)) as [[| | | |[|x items]|]|] eqn:Ha;
    try discriminate Hcan.
  apply andb_true_iff in Hcan as [Hto _].
  intros Hst. apply translate_bad_request_inv in Hst as [_ Hin].
  unfold translation_input, Page.translateRequest in Hin.
  rewrite Ha in Hin.
  destruct (Page.translateTo (Page.state c)) as [|t0 t];
    [discriminate Hto|].
  vm_compute in Hin. discriminate Hin.
Qed.

Lemma responseError_generate (e : JsString) (raw : option JsString)
    (items : option (list AdItem)) (fallback : JsString) :
  e <> [] ->
  Page.responseError (Page.generateJson (Generate.Failure e raw items))
    fallback = ErrorObject e.
Proof.
  destruct e as [|c0 e']; [contradiction|]. intros _.
  vm_compute. reflexivity.
Qed.

(** X25.  onSubmit against the generation route, when the route does not
    answer 200: the page shows the error message of the route, an empty
    list of ads, and is no longer loading; history, selection and stored
    item are as before. *)
Theorem onSubmit_failure (w : World) (b : Page.Browser) (c : Page.Client) :
  Page.url (Page.state c) <> [] ->
  status (fst (Generate.POST w (Page.generateRequest (Page.state c))))
  <> 200%Z ->
  exists e raw items,
    body (fst (Generate.POST w (Page.generateRequest (Page.state c))))
    = Generate.Failure e raw items
    /\ fst (Page.onSubmit (Page.served w b) c)
       = {| Page.state :=
              settled (Page.state c) (Some e) (Some (JArr []))
                (Page.history (Page.state c))
                (Page.selectedHistoryId (Page.state c));
            Page.stored := Page.stored c |}.
Proof.
  intros Hu Hst.
  destruct (generate_failure_cases w _ Hst)
    as (e & raw & items & st & Hr & He & Hin).
  exists e, raw, items. rewrite Hr. split; [reflexivity|].
  unfold Page.onSubmit. rewrite (nonempty_of _ Hu).
  cbn [negb fst].
  cbn [Page.fetch_generate Page.served Page.json Page.ok].
  rewrite Hr. cbn [status body NextResponse_json].
  rewrite (not_ok st Hin). cbn [negb].
  rewrite (responseError_generate e raw items _ He).
  reflexivity.
Qed.

Lemma shown_ads (src : Generate.Source) (l : list AdItem) :
  or_else (prop (Page.generateJson (Generate.Ads src l)) (js "ads")) (JArr [])
  = JArr (map Page.adJson l).
Proof. vm_compute. reflexivity. Qed.

Lemma submitEntry_built (b : Page.Browser) (st : Page.State)
    (host : JsString) (shown : Value) :
  Page.newEntry b
    [ (js "url", JStr (Page.url st));
      (js "customPrompt", JStr (Page.customPrompt st));
      (js "label", JStr (Page.remove_first (js "www.") host));
      (js "ads", shown) ]
  = submitEntry b st host shown.
Proof. vm_compute. reflexivity. Qed.

Lemma generate_success_cases (w : World) (req : Generate.GenerateBody) :
  status (fst (Generate.POST w req)) = 200%Z ->
  exists src l,
    fst (Generate.POST w req) = NextResponse_json (Generate.Ads src l) 200
    /\ length l = 3%nat /\ Forall valid_ad l.
Proof.
  intros Hst.
  destruct (generate_response_cases w req)
    as [Hr | [Hr | [[e Hr] | [(c & Hr & _) | [(p & l & _ & _ & Hr)
        | (sc & p & l & Hn & Hl & _ & Hr)]]]]];
    rewrite Hr in Hst |- *; try discriminate Hst.
  destruct (normalize_valid p l Hn) as [Hle Hv].
  eexists; exists l. split; [reflexivity|]. split; [lia | exact Hv].
Qed.

(** X26.  onSubmit against the generation route, when the route answers
    200: the page shows the three ads of the response and is no longer
    loading.  When the url has a host name, a new entry with the ads, the
    url, the custom prompt and the host name without its first www. as
    label goes to the head of the history, cut to 100 entries, which is
    persisted, and the entry is selected; otherwise the ads are shown all
    the same, with the message of the failure, and nothing is saved. *)
Theorem onSubmit_success (w : World) (b : Page.Browser) (c : Page.Client) :
  Page.url (Page.state c) <> [] ->
  status (fst (Generate.POST w (Page.generateRequest (Page.state c))))
  = 200%Z ->
  exists src l,
    body (fst (Generate.POST w (Page.generateRequest (Page.state c))))
    = Generate.Ads src l
    /\ length l = 3%nat /\ Forall valid_ad l
    /\ fst (Page.onSubmit (Page.served w b) c)
       = match Page.URL_hostname b (Page.url (Page.state c)) with
         | Returned host =>
             let h :=
               firstn 100
                 (submitEntry b (Page.state c) host
                    (JArr (map Page.adJson l))
                  :: Page.history (Page.state c)) in
             {| Page.state :=
                  settled (Page.state c) None
                    (Some (JArr (map Page.adJson l))) h
                    (Some (JStr (Page.randomUUID b)));
                Page.stored := Page.persistHistory b h (Page.stored c) |}
         | Thrown e =>
             {| Page.state :=
                  settled (Page.state c)
                    (Some (error_message_else e (js "Neznana napaka")))
                    (Some (JArr (map Page.adJson l)))
                    (Page.history (Page.state c))
                    (Page.selectedHistoryId (Page.state c));
                Page.stored := Page.stored c |}
         end.
Proof.
  intros Hu Hst.
  destruct (generate_success_cases w _ Hst) as (src & l & Hr & Hl & Hv).
  exists src, l. rewrite Hr.
  split; [reflexivity|]. split; [exact Hl|]. split; [exact Hv|].
  unfold Page.onSubmit. rewrite (nonempty_of _ Hu).
  cbn [negb fst].
  cbn [Page.fetch_generate Page.served Page.json Page.ok].
  rewrite Hr. cbn [status body NextResponse_json].
  change (Page.is_ok 200) with true. cbn [negb].
  cbn [Page.generateJson].
  change (or_else (prop (JObj _) (js "ads")) (JArr []))
    with (or_else (prop (Page.generateJson (Generate.Ads src l)) (js "ads"))
            (JArr [])).
  rewrite (shown_ads src l).
  cbn [Page.URL_hostname Page.served].
  destruct (Page.URL_hostname b (Page.url (Page.state c))) as [host|e].
  - unfold Page.done, Page.pushHistory.
    rewrite (submitEntry_built (Page.served w b) (Page.state c) host).
    reflexivity.
  - reflexivity.
Qed.

Lemma translationEntry_built (b : Page.Browser) (st : Page.State)
    (shown : Value) :
  Page.newEntry b
    [ (js "label", JStr (js "Prevod v " ++ Page.translateTo st));
      (js "ads", shown) ]
  = translationEntry b st shown.
Proof. vm_compute. reflexivity. Qed.

Lemma translated_ads (l : list Value) :
  prop (Page.translateJson (Translate.Ads l)) (js "ads") = Some (JArr l).
Proof. vm_compute. reflexivity. Qed.

Lemma responseError_translate (e : JsString) (raw : option JsString)
    (fallback : JsString) :
  Page.responseError (Page.translateJson (Translate.Failure e raw)) fallback
  = ErrorObject (if nonempty e then e else fallback).
Proof. destruct e; vm_compute; reflexivity. Qed.

(** X27.  A click on the translate button, when the translation route
    answers 200: the page shows the ads of the response in place of its
    own and is no longer loading; an entry labelled with the target
    language goes to the head of the history, cut to 100 entries, which is
    persisted, and the entry is selected.  An error message shown before
    the click stays. *)
Theorem onTranslate_success (w : World) (b : Page.Browser)
    (c : Page.Client) :
  status (fst (Translate.POST w (Page.translateRequest (Page.state c))))
  = 200%Z ->
  exists x rest,
    body (fst (Translate.POST w (Page.translateRequest (Page.state c))))
    = Translate.Ads (x :: rest)
    /\ fst (Page.onTranslate (Page.served w b) c)
       = let h :=
           firstn 100
             (translationEntry b (Page.state c) (JArr (x :: rest))
              :: Page.history (Page.state c)) in
         {| Page.state :=
              settled (Page.state c) (Page.error (Page.state c))
                (Some (JArr (x :: rest))) h
                (Some (JStr (Page.randomUUID b)));
            Page.stored := Page.persistHistory b h (Page.stored c) |}.
Proof.
  intros Hst.
  destruct (translate_response_cases w (Page.translateRequest (Page.state c)))
    as [(e & st & Hr & Hs) | [(content & Hr & _) | (x & rest & Hr)]];
    rewrite Hr in Hst |- *.
  - destruct Hs as [-> | ->]; discriminate Hst.
  - discriminate Hst.
  - exists x, rest. split; [reflexivity|].
    unfold Page.onTranslate. cbn [fst].
    cbn [Page.fetch_translate Page.served Page.json Page.ok].
    rewrite Hr. cbn [status body NextResponse_json].
    change (Page.is_ok 200) with true. cbn [negb].
    cbn [Page.translateJson].
    change (prop (JObj [(js "ads", JArr (x :: rest))]) (js "ads"))
      with (prop (Page.translateJson (Translate.Ads (x :: rest))) (js "ads")).
    rewrite translated_ads.
    unfold Page.done, Page.pushHistory.
    rewrite (translationEntry_built (Page.served w b) (Page.state c)).
    reflexivity.
Qed.

(** X28.  A click on the translate button, when the translation route does
    not answer 200: the ads shown stay as they were, the page shows the
    error message of the route, or its own fallback text when that message
    is empty, and is no longer loading; nothing is saved. *)
Theorem onTranslate_failure (w : World) (b : Page.Browser)
    (c : Page.Client) :
  status (fst (Translate.POST w (Page.translateRequest (Page.state c))))
  <> 200%Z ->
  exists e raw,
    body (fst (Translate.POST w (Page.translateRequest (Page.state c))))
    = Translate.Failure e raw
    /\ fst (Page.onTranslate (Page.served w b) c)
       = {| Page.state :=
              settled (Page.state c)
                (Some (if nonempty e then e else js "Napaka pri prevodu."))
                (Page.ads (Page.state c))
                (Page.history (Page.state c))
                (Page.selectedHistoryId (Page.state c));
            Page.stored := Page.stored c |}.
Proof.
  intros Hst.
  assert (Hcase : exists e raw st,
            fst (Translate.POST w (Page.translateRequest (Page.state c)))
            = NextResponse_json (Translate.Failure e raw) st
            /\ In st [400; 500; 502]%Z).
  { destruct (translate_response_cases w
                (Page.translateRequest (Page.state c)))
      as [(e & st & Hr & Hs) | [(content & Hr & _) | (x & rest & Hr)]].
    - exists e, None, st. split; [exact Hr|].
      destruct Hs as [-> | ->]; simpl; auto.
    - eexists; eexists; exists 502%Z. split; [exact Hr | simpl; auto].
    - exfalso. apply Hst. rewrite Hr. reflexivity. }
  destruct Hcase as (e & raw & st & Hr & Hin).
  exists e, raw. rewrite Hr. split; [reflexivity|].
  unfold Page.onTranslate. cbn [fst].
  cbn [Page.fetch_translate Page.served Page.json Page.ok].
  rewrite Hr. cbn [status body NextResponse_json].
  rewrite (not_ok st Hin). cbn [negb].
  rewrite responseError_translate.
  reflexivity.
Qed.

(** X29.  A reload brings the history back: when the stored item is the
    text of the history shown and JSON.parse reads that text back as the
    same array, loadHistory in a newly mounted component, whatever its
    state, sets the history to the one that was shown. *)
Theorem reload_restores_history (b : Page.Browser) (c : Page.Client)
    (fresh : Page.State) :
  Page.storage_blocked b = false ->
  in_sync c ->
  JSON_stringify (JArr (history_of c)) 0 <> [] ->
  JSON_parse (JSON_stringify (JArr (history_of c)) 0)
  = Some (JArr (history_of c)) ->
  history_of
    (Page.loadHistory b {| Page.state := fresh; Page.stored := Page.stored c |})
  = history_of c.
Proof.
  intros Hb Hsync Hne Hparse. unfold Page.loadHistory.
  cbn [Page.stored]. rewrite Hb, Hsync, (nonempty_of _ Hne), Hparse.
  reflexivity.
Qed.

End PageHandlers.

(** ** The properties of the page on the sample visits *)

Lemma history_bounded_witness :
  (length
     (history_of (H := Ref.runtime)
        (run [ (Page.served Visit.answered Visit.browser, Submit);
               (Page.served Visit.answered Visit.browser, Select JNull);
               (Visit.browser, Clear) ]
           Visit.typed))
   <= 100)%nat.
Proof.
  apply (history_bounded (H := Ref.runtime)). cbn. lia.
Defined.

Lemma storage_in_sync_witness :
  in_sync (H := Ref.runtime)
    (run [ (Page.served Visit.answered Visit.browser, TranslateNow);
           (Page.served Visit.answered Visit.browser, Submit) ]
       Visit.showing).
Proof.
  apply (storage_in_sync (H := Ref.runtime)).
  - repeat constructor.
  - vm_compute. reflexivity.
Defined.

Lemma submit_passes_the_check_witness :
  Page.url (Page.state Visit.typed) <> []
  /\ Page.generateRequest (Page.state Visit.typed)
     = Page.generateRequest (Page.state Visit.typed)
  /\ status
       (fst (Generate.POST (H := Ref.runtime) Visit.answered
               (Page.generateRequest (Page.state Visit.typed))))
     <> 400%Z.
Proof.
  apply (submit_passes_the_check (H := Ref.runtime) Visit.answered
           Visit.browser Visit.typed).
  left. reflexivity.
Defined.

Lemma translate_click_passes_the_check_witness :
  Page.translateRequest (Page.state Visit.showing)
  = Page.translateRequest (Page.state Visit.showing)
  /\ status
       (fst (Translate.POST (H := Ref.runtime) Visit.answered
               (Page.translateRequest (Page.state Visit.showing))))
     <> 400%Z.
Proof.
  apply (translate_click_passes_the_check (H := Ref.runtime) Visit.answered
           Visit.browser Visit.showing).
  - reflexivity.
  - left. reflexivity.
Defined.

Lemma onSubmit_failure_witness :
  exists e raw items,
    body (fst (Generate.POST (H := Ref.runtime) Sample.offline
                 (Page.generateRequest (Page.state Visit.typed))))
    = Generate.Failure e raw items
    /\ fst (Page.onSubmit (Page.served Sample.offline Visit.browser)
              Visit.typed)
       = {| Page.state :=
              settled (Page.state Visit.typed) (Some e) (Some (JArr []))
                (Page.history (Page.state Visit.typed))
                (Page.selectedHistoryId (Page.state Visit.typed));
            Page.stored := Page.stored Visit.typed |}.
Proof.
  apply (onSubmit_failure (H := Ref.runtime)).
  - discriminate.
  - vm_compute. discriminate.
Defined.

Lemma onSubmit_success_witness :
  exists src l,
    body (fst (Generate.POST (H := Ref.runtime) Visit.answered
                 (Page.generateRequest (Page.state Visit.typed))))
    = Generate.Ads src l
    /\ length l = 3%nat /\ Forall valid_ad l
    /\ fst (Page.onSubmit (Page.served Visit.answered Visit.browser)
              Visit.typed)
       = match
           Page.URL_hostname Visit.browser (Page.url (Page.state Visit.typed))
         with
         | Returned host =>
             let h :=
               firstn 100
                 (submitEntry Visit.browser (Page.state Visit.typed) host
                    (JArr (map Page.adJson l))
                  :: Page.history (Page.state Visit.typed)) in
             {| Page.state :=
                  settled (Page.state Visit.typed) None
                    (Some (JArr (map Page.adJson l))) h
                    (Some (JStr (Page.randomUUID Visit.browser)));
                Page.stored :=
                  Page.persistHistory Visit.browser h
                    (Page.stored Visit.typed) |}
         | Thrown e =>
             {| Page.state :=
                  settled (Page.state Visit.typed)
                    (Some (error_message_else e (js "Neznana napaka")))
                    (Some (JArr (map Page.adJson l)))
                    (Page.history (Page.state Visit.typed))
                    (Page.selectedHistoryId (Page.state Visit.typed));
                Page.stored := Page.stored Visit.typed |}
         end.
Proof.
  apply (onSubmit_success (H := Ref.runtime)).
  - discriminate.
  - vm_compute. reflexivity.
Defined.

Lemma onTranslate_success_witness :
  exists x rest,
    body (fst (Translate.POST (H := Ref.runtime) Visit.answered
                 (Page.translateRequest (Page.state Visit.showing))))
    = Translate.Ads (x :: rest)
    /\ fst (Page.onTranslate (Page.served Visit.answered Visit.browser)
              Visit.showing)
       = let h :=
           firstn 100
             (translationEntry Visit.browser (Page.state Visit.showing)
                (JArr (x :: rest))
              :: Page.history (Page.state Visit.showing)) in
         {| Page.state :=
              settled (Page.state Visit.showing)
                (Page.error (Page.state Visit.showing))
                (Some (JArr (x :: rest))) h
                (Some (JStr (Page.randomUUID Visit.browser)));
            Page.stored :=
              Page.persistHistory Visit.browser h
                (Page.stored Visit.showing) |}.
Proof.
  apply (onTranslate_success (H := Ref.runtime)).
  vm_compute. reflexivity.
Defined.

Lemma onTranslate_failure_witness :
  exists e raw,
    body (fst (Translate.POST (H := Ref.runtime) Sample.offline
                 (Page.translateRequest (Page.state Visit.showing))))
    = Translate.Failure e raw
    /\ fst (Page.onTranslate (Page.served Sample.offline Visit.browser)
              Visit.showing)
       = {| Page.state :=
              settled (Page.state Visit.showing)
                (Some (if nonempty e then e else js "Napaka pri prevodu."))
                (Page.ads (Page.state Visit.showing))
                (Page.history (Page.state Visit.showing))
                (Page.selectedHistoryId (Page.state Visit.showing));
            Page.stored := Page.stored Visit.showing |}.
Proof.
  apply (onTranslate_failure (H := Ref.runtime)).
  vm_compute. discriminate.
Defined.

Lemma reload_restores_history_witness :
  history_of (H := Ref.runtime)
    (Page.loadHistory Visit.browser
       {| Page.state := Visit.mounted;
          Page.stored :=
            Page.stored
              (fst (Page.onSubmit
                      (Page.served Visit.answered Visit.browser)
                      Visit.typed)) |})
  = history_of
      (fst (Page.onSubmit (Page.served Visit.answered Visit.browser)
              Visit.typed)).
Proof.
  apply (reload_restores_history (H := Ref.runtime)).
  - reflexivity.
  - vm_compute. reflexivity.
  - vm_compute. discriminate.
  - vm_compute. reflexivity.
Defined.
